(** * A retrieval-augmented chat backend: model of the service layer

    Shallow embedding of the Python services of the backend
    (services/chat_service.py, the RAG service, the Supabase service and the
    document processor) and the properties of the retrieval and
    context-assembly pipeline.

    Conventions of the model.
    - A Python [str] is a [string]; one character is one [ascii].  The
      characters of the model are the Unicode code points below 256, with
      one exception: code 149 stands for the bullet U+2022, the only
      character beyond that range that the services name (U+0095 itself, a
      control character, is not in the model).  Strings with other
      characters are outside the model.
    - A Python [int] is a [Z]; a float is a rational (only carried around).
    - A dict with a fixed set of keys is a record; a key read with
      [d.get(k, default)] is an [option] field.
    - The document store, the embedding model and the LLM are external.
      Store tables that the services read and write are part of the [World];
      what the other collaborators answer, and which calls raise, is given by
      an [Env].  Every call to a collaborator is appended to the call log of
      the world.
    - A computation is a function from the world to a [Result] and the new
      world: effects performed before an exception is raised stay. *)

From Stdlib Require Import ZArith List String Ascii DecimalString Sorted Lia.
From Stdlib Require QArith.
From stdpp Require Import base list strings gmap.

Set Default Proof Using "Type".

(** ** Python primitives used by the services *)

Module Py.

Definition nl : string := String (ascii_of_nat 10) EmptyString.

(** [str(n)] for an int. *)
Definition str_of_int (n : Z) : string :=
  NilZero.string_of_int (Z.to_int n).

(** [len(s)] *)
Definition len (s : string) : nat := String.length s.

(** [s[:n]] *)
Definition slice_to (n : nat) (s : string) : string := substring 0 n s.

(** [l[-n:]] for [n > 0]: the last [n] elements, all of them when the list
    is shorter. *)
Definition lastn {A} (n : nat) (l : list A) : list A :=
  drop (length l - n) l.

(** [l[:n]] *)
Definition firstn {A} (n : nat) (l : list A) : list A := take n l.

(** [sep.join(parts)] *)
Definition join (sep : string) (parts : list string) : string :=
  String.concat sep parts.

(** [s.startswith(p)] *)
Definition startswith (p s : string) : bool := String.prefix p s.

Definition string_of_rev (cur : list ascii) : string :=
  string_of_list_ascii (rev cur).

(** [s.split(sep)] for a non-empty separator: scan from the left, cut at
    each occurrence of [sep] and resume after it.  [skip] counts the
    characters of a matched separator still to be consumed and [cur] holds
    the current piece, reversed. *)
Fixpoint split_from (sep : string) (skip : nat) (cur : list ascii)
    (s : string) : list string :=
  match s with
  | EmptyString => [string_of_rev cur]
  | String c s' =>
      match skip with
      | S k => split_from sep k cur s'
      | O =>
          if String.prefix sep s
          then string_of_rev cur :: split_from sep (String.length sep - 1) [] s'
          else split_from sep 0 (c :: cur) s'
      end
  end.

Definition split (sep s : string) : list string := split_from sep 0 [] s.

(** The white space removed by [s.strip()]: of the characters of the model,
    U+0009 to U+000D, U+001C to U+001F, the space, U+0085 (next line) and
    U+00A0 (no-break space). *)
Definition is_space (c : ascii) : bool :=
  let n := nat_of_ascii c in
  (Nat.eqb n 32 || (Nat.leb 9 n && Nat.leb n 13) || (Nat.leb 28 n && Nat.leb n 31)
   || Nat.eqb n 133 || Nat.eqb n 160)%bool.

Fixpoint lstrip (s : string) : string :=
  match s with
  | EmptyString => EmptyString
  | String c s' => if is_space c then lstrip s' else s
  end.

Definition rstrip (s : string) : string :=
  string_of_list_ascii
    (rev (list_ascii_of_string (lstrip (string_of_rev (list_ascii_of_string s))))).

Definition strip (s : string) : string := rstrip (lstrip s).

(** The loop [acc = []; for x in l: acc.append(f(x))]. *)
Definition for_append {A B} (f : A → B) (l : list A) : list B :=
  fold_left (λ acc x, acc ++ [f x]) l [].

(** [enumerate(l)] *)
Definition enumerate {A} (l : list A) : list (Z * A) :=
  imap (λ i x, (Z.of_nat i, x)) l.

(** [list(set(l))]: the distinct elements of [l].  Python fixes no order;
    the model keeps one occurrence of each element and the properties below
    do not depend on which order is chosen. *)
Definition list_set `{EqDecision A} (l : list A) : list A := remove_dups l.

End Py.

(** ** Exceptions and results *)

Inductive exn : Type :=
  | ValueError (msg : string)
  | IndexError
  | ExternalError (msg : string).

Inductive Result (A : Type) : Type :=
  | Ok (a : A)
  | Raise (e : exn).
Arguments Ok {A} a.
Arguments Raise {A} e.

Definition float : Type := QArith_base.Q.
Definition vector : Type := list float.

(** ** Data model (models/database.py and the rows the store returns) *)

(** A page field of a citation is the page number, or the string that stands
    for an unknown page. *)
Inductive Value : Type :=
  | VInt (n : Z)
  | VStr (s : string).

Module Book.
Record t : Type := mk {
  id : string;
  title : string;
  author : string;
  genre : string;
  file_path : string;
  total_pages : Z
}.
End Book.

(** A chunk row as returned by the vector search, to which the chat service
    adds [book_title] and [book_author]. *)
Module Chunk.
Record t : Type := mk {
  content : string;
  book_id : string;
  page_start : option Z;
  page_end : option Z;
  book_title : option string;
  book_author : option string
}.
End Chunk.

Module Citation.
Record t : Type := mk {
  book_title : string;
  book_author : string;
  page_start : Value;
  page_end : Value;
  content_preview : string
}.
End Citation.

(** A notebook row; its [id] is the key of the notebooks table.  The column
    [created_at], which the services below neither read nor write, is left
    out. *)
Module Notebook.
Record t : Type := mk {
  user_id : string;
  name : string;
  selected_books : list string;
  selected_genres : list string;
  memory_summary : string;
  key_facts : list string;
  updated_at : string
}.
End Notebook.

Module ChatMessage.
Record t : Type := mk {
  notebook_id : string;
  user_message : string;
  assistant_response : string;
  citations : list Citation.t
}.
End ChatMessage.

Module ChatRequest.
Record t : Type := mk {
  notebook_id : string;
  message : string;
  user_id : string
}.
End ChatRequest.

Module ChatResponse.
Record t : Type := mk {
  response : string;
  citations : list Citation.t;
  memory_summary : string;
  key_facts : list string
}.
End ChatResponse.

(** Messages handed to the LLM client. *)
Inductive Message : Type :=
  | SystemMessage (content : string)
  | HumanMessage (content : string).

(** An entry of the formatted conversation history. *)
Module HistoryEntry.
Record t : Type := mk { role : string; content : string }.
End HistoryEntry.

(** A question and its answer, as passed to the memory functions. *)
Module Conversation.
Record t : Type := mk { question : string; answer : string }.
End Conversation.

(** The dict returned by answer generation. *)
Module RagResponse.
Record t : Type := mk {
  response : string;
  context_used : string;
  chunks_retrieved : Z
}.
End RagResponse.

(** A chunk record of the ingestion path (the dicts built by
    [DocumentProcessor.create_chunks]); [embedding] is absent until
    [generate_embeddings] sets it. *)
Module ChunkMetadata.
Record t : Type := mk {
  page_number : Z;
  chunk_in_page : Z;
  total_chunks_in_page : Z
}.
End ChunkMetadata.

Module DocChunk.
Record t : Type := mk {
  content : string;
  page_start : Z;
  page_end : Z;
  chunk_index : Z;
  metadata : ChunkMetadata.t;
  embedding : option vector
}.

Definition set_embedding (c : t) (e : vector) : t :=
  mk (content c) (page_start c) (page_end c) (chunk_index c) (metadata c) (Some e).
End DocChunk.

(** ** The world: store tables, external collaborators, call log *)

(** Requests sent to the document store. *)
Inductive DbOp : Type :=
  | GetNotebook (notebook_id : string) (user_id : option string)
  | BooksByGenre (genre : string)
  | BooksByIds (book_ids : list string)
  | MatchDocuments (query_embedding : vector) (match_count : Z) (book_ids : list string)
  | ChatHistory (notebook_id : string) (limit : nat)
  | SaveChatMessage (row : ChatMessage.t)
  | UpdateNotebookMemory (notebook_id : string) (memory_summary : string)
      (key_facts : list string).

Inductive Call : Type :=
  | DbCall (op : DbOp)
  | EmbedCall (texts : list string)
  | LlmCall (messages : list Message).

(** The tables hold their rows in insertion order, which for the chat
    messages is the order of their timestamps. *)
Record World : Type := mkWorld {
  books : list Book.t;
  notebooks : gmap string Notebook.t;
  chat_messages : list ChatMessage.t;
  calls : list Call
}.

(** What the collaborators answer.  [db_fails op] tells that the store client
    raises on the request [op]; [match_documents] is the stored procedure of
    the vector search; [embed] is the embedding model; [llm_invoke] gives the
    content of the LLM's reply; [random] gives the draws of the random number
    generator; [split_text] is the recursive character splitter of the
    text-splitting library and [pdf_pages] the cleaned non-empty pages read
    from a PDF file; [utcnow] is [datetime.utcnow().isoformat()], the reading
    of the clock after the calls made so far. *)
Record Env : Type := mkEnv {
  db_fails : DbOp → bool;
  match_documents : vector → Z → list string → list Chunk.t;
  embed : list string → Result (list vector);
  llm_invoke : list Message → Result string;
  random : nat → float;
  split_text : string → list string;
  pdf_pages : string → Result (list (string * Z));
  utcnow : list Call → string
}.

(** ** Computations with effects and exceptions *)

Definition M (A : Type) : Type := World → Result A * World.

Definition ret {A} (a : A) : M A := λ w, (Ok a, w).

Definition bind {A B} (m : M A) (k : A → M B) : M B :=
  λ w, match m w with
       | (Ok a, w') => k a w'
       | (Raise e, w') => (Raise e, w')
       end.

Definition raise {A} (e : exn) : M A := λ w, (Raise e, w).

(** [try: m except Exception as e: h(e)] *)
Definition try_except {A} (m : M A) (h : exn → M A) : M A :=
  λ w, match m w with
       | (Ok a, w') => (Ok a, w')
       | (Raise e, w') => h e w'
       end.

Definition get_world : M World := λ w, (Ok w, w).

Definition log_call (c : Call) : M unit :=
  λ w, (Ok tt, mkWorld (books w) (notebooks w) (chat_messages w) (calls w ++ [c])).

Definition set_notebooks (n : gmap string Notebook.t) : M unit :=
  λ w, (Ok tt, mkWorld (books w) n (chat_messages w) (calls w)).

Definition set_chat_messages (ms : list ChatMessage.t) : M unit :=
  λ w, (Ok tt, mkWorld (books w) (notebooks w) ms (calls w)).

(** Lift the answer of a collaborator. *)
Definition lift {A} (r : Result A) : M A :=
  match r with
  | Ok a => ret a
  | Raise e => raise e
  end.

Declare Scope svc_scope.
Delimit Scope svc_scope with svc.
Notation "x <- m ;; k" := (bind m (λ x, k))
  (at level 100, m at next level, right associativity) : svc_scope.
Notation "m ;;; k" := (bind m (λ _, k))
  (at level 100, right associativity) : svc_scope.
Bind Scope svc_scope with M.
Local Open Scope svc_scope.

(** ** SupabaseService (services/supabase_service.py)

    Each method wraps one request to the store in [try]/[except]; the readers
    answer with an empty result when the request raises, [create]-like
    writers raise again. *)

Module SupabaseService.
Section WithEnv.
Variable env : Env.

(** A request to the store: it is logged, and raises when the client
    fails. *)
Definition execute (op : DbOp) : M unit :=
  log_call (DbCall op) ;;;
  if db_fails env op then raise (ExternalError "store") else ret tt.

Definition get_books_by_genre (genre : string) : M (list Book.t) :=
  try_except
    (execute (BooksByGenre genre) ;;;
     w <- get_world ;;
     ret (filter (λ b, Book.genre b = genre) (books w)))
    (λ _, ret []).

Definition get_books_by_ids (book_ids : list string) : M (list Book.t) :=
  try_except
    (match book_ids with
     | [] => ret []
     | _ =>
         execute (BooksByIds book_ids) ;;;
         w <- get_world ;;
         ret (filter (λ b, Book.id b ∈ book_ids) (books w))
     end)
    (λ _, ret []).

Definition search_chunks_vector (query_embedding : vector)
    (book_ids : list string) (top_k : Z) : M (list Chunk.t) :=
  try_except
    (execute (MatchDocuments query_embedding top_k book_ids) ;;;
     ret (match_documents env query_embedding top_k book_ids))
    (λ _, ret []).

(** [if user_id:] holds for a given, non-empty user id. *)
Definition user_filter (user_id : option string) (nb : Notebook.t) : bool :=
  match user_id with
  | Some u => if decide (u = "") then true else bool_decide (Notebook.user_id nb = u)
  | None => true
  end.

Definition get_notebook_by_id (notebook_id : string) (user_id : option string)
    : M (option Notebook.t) :=
  try_except
    (execute (GetNotebook notebook_id user_id) ;;;
     w <- get_world ;;
     ret (match notebooks w !! notebook_id with
          | Some nb => if user_filter user_id nb then Some nb else None
          | None => None
          end))
    (λ _, ret None).

(** The columns written by [update_notebook_memory]. *)
Definition set_memory (memory_summary : string) (key_facts : list string)
    (updated_at : string) (nb : Notebook.t) : Notebook.t :=
  Notebook.mk (Notebook.user_id nb) (Notebook.name nb)
    (Notebook.selected_books nb) (Notebook.selected_genres nb)
    memory_summary key_facts updated_at.

(** The clock is read when the update is built, before the request is
    sent. *)
Definition update_notebook_memory (notebook_id : string)
    (memory_summary : string) (key_facts : list string) : M bool :=
  try_except
    (w0 <- get_world ;;
     let updated_at := utcnow env (calls w0) in
     execute (UpdateNotebookMemory notebook_id memory_summary key_facts) ;;;
     w <- get_world ;;
     set_notebooks
       (alter (set_memory memory_summary key_facts updated_at) notebook_id
          (notebooks w)) ;;;
     ret (bool_decide (is_Some (notebooks w !! notebook_id))))
    (λ _, ret false).

Definition save_chat_message (chat_data : ChatMessage.t) : M (option ChatMessage.t) :=
  try_except
    (execute (SaveChatMessage chat_data) ;;;
     w <- get_world ;;
     set_chat_messages (chat_messages w ++ [chat_data]) ;;;
     ret (Some chat_data))
    (λ e, raise e).

Definition get_chat_history (notebook_id : string) (limit : nat)
    : M (list ChatMessage.t) :=
  try_except
    (execute (ChatHistory notebook_id limit) ;;;
     w <- get_world ;;
     ret (take limit
            (filter (λ m, ChatMessage.notebook_id m = notebook_id) (chat_messages w))))
    (λ _, ret []).

End WithEnv.
End SupabaseService.

(** ** RAGService (class [RAGService]: query embedding, context assembly,
       answer generation, memory summary and key facts) *)

Module RAGService.

Import Py.

Definition system_prompt : string :=
  "You are an intelligent assistant that helps users understand books and documents. " +:+ nl +:+
  "        You can only answer questions based on the information provided in the context. " +:+ nl +:+
  "        Always cite your sources by mentioning the book title and page numbers." +:+ nl +:+
  "        If you don't have enough information to answer a question, say so clearly." +:+ nl +:+
  "        Be helpful, accurate, and concise in your responses.".

Definition error_text : string :=
  "I apologize, but I encountered an error while processing your request. Please try again.".

(** The separator counted by [generate_response]. *)
Definition from_tag : string := "[From".

(** The bullet character U+2022, one character of the model. *)
Definition bullet : string := String (ascii_of_nat 149) EmptyString.

(** How a page field, or the default ["?"], is printed in a format
    string. *)
Definition page_str (p : option Z) : string :=
  match p with
  | Some n => str_of_int n
  | None => "?"
  end.

Definition context_part (chunk : Chunk.t) : string :=
  let book_title := default "Unknown Book" (Chunk.book_title chunk) in
  let page_start := page_str (Chunk.page_start chunk) in
  let page_end := page_str (Chunk.page_end chunk) in
  "[From " +:+ book_title +:+ ", pages " +:+ page_start +:+ "-" +:+ page_end +:+ "]" +:+ nl
    +:+ Chunk.content chunk +:+ nl.

Definition create_context_from_chunks (chunks : list Chunk.t) : string :=
  let context_parts := for_append context_part chunks in
  join nl context_parts.

(** The branch of the history loop of [generate_response]. *)
Definition history_message (msg : HistoryEntry.t) : Message :=
  if decide (HistoryEntry.role msg = "user")
  then HumanMessage (HistoryEntry.content msg)
  else SystemMessage (HistoryEntry.content msg).

Definition query_with_context (query context : string) : string :=
  "Context information:" +:+ nl +:+ context +:+ nl +:+ nl +:+
  "User question: " +:+ query +:+ nl +:+ nl +:+
  "Please answer based only on the context provided above. Include citations to specific books and page numbers.".

(** The message list built by [generate_response] before the LLM is
    invoked. *)
Definition build_messages (query context : string)
    (conversation_history : list HistoryEntry.t) : list Message :=
  let messages := [SystemMessage system_prompt] in
  let messages :=
    match conversation_history with
    | [] => messages
    | _ => fold_left (λ acc msg, acc ++ [history_message msg])
             (lastn 5 conversation_history) messages
    end in
  messages ++ [HumanMessage (query_with_context query context)].

Definition update_prompt (current_summary : string) (c : Conversation.t) : string :=
  "Current summary: " +:+ current_summary +:+ nl +:+ nl +:+
  "New conversation:" +:+ nl +:+
  "Question: " +:+ Conversation.question c +:+ nl +:+
  "Answer: " +:+ Conversation.answer c +:+ nl +:+ nl +:+
  "Please update the summary to include key points from this new conversation. Keep it concise but comprehensive.".

Definition memory_messages (current_summary : string) (c : Conversation.t)
    : list Message :=
  [SystemMessage "You are a helpful assistant that creates concise summaries.";
   HumanMessage (update_prompt current_summary c)].

Definition extract_prompt (c : Conversation.t) : string :=
  "From this conversation, extract 3-5 key facts or insights:" +:+ nl +:+ nl +:+
  "Question: " +:+ Conversation.question c +:+ nl +:+
  "Answer: " +:+ Conversation.answer c +:+ nl +:+ nl +:+
  "Please list the key facts as bullet points.".

Definition facts_messages (c : Conversation.t) : list Message :=
  [SystemMessage "You are a helpful assistant that extracts key facts.";
   HumanMessage (extract_prompt c)].

(** The list comprehension and the slice of [extract_key_facts]. *)
Definition parse_facts (content : string) : list string :=
  let facts :=
    map strip
      (filter (λ line, startswith "-" (strip line) || startswith bullet (strip line))
         (split nl content)) in
  firstn 5 facts.

Section WithEnv.
Variable env : Env.

(** [np.random.rand(n)] *)
Definition random_rand (n : nat) : vector := map (random env) (seq 0 n).

(** [self.llm.invoke(messages).content] *)
Definition invoke (messages : list Message) : M string :=
  log_call (LlmCall messages) ;;; lift (llm_invoke env messages).

(** [list(self.embedding_model.embed(texts))] *)
Definition embed_texts (texts : list string) : M (list vector) :=
  log_call (EmbedCall texts) ;;; lift (embed env texts).

Definition _generate_query_embedding (query : string) : M vector :=
  try_except
    (embeddings <- embed_texts [query] ;;
     match embeddings with
     | query_embedding :: _ => ret query_embedding
     | [] => raise IndexError
     end)
    (λ _, ret (random_rand 384)).

Definition generate_response (query context : string)
    (conversation_history : list HistoryEntry.t) : M RagResponse.t :=
  try_except
    (let messages := build_messages query context conversation_history in
     content <- invoke messages ;;
     ret (RagResponse.mk content context
            (Z.of_nat (length (split from_tag context)) - 1)))
    (λ _, ret (RagResponse.mk error_text "" 0)).

Definition update_memory_summary (current_summary : string)
    (new_conversation : Conversation.t) : M string :=
  try_except
    (invoke (memory_messages current_summary new_conversation))
    (λ _, ret current_summary).

Definition extract_key_facts (conversation : Conversation.t) : M (list string) :=
  try_except
    (content <- invoke (facts_messages conversation) ;;
     ret (parse_facts content))
    (λ _, ret []).

End WithEnv.
End RAGService.

(** ** DocumentProcessor (class [DocumentProcessor]: the chunker and the
       ingestion-time embedder) *)

Module DocumentProcessor.

Import Py.

(** The body of the inner loop of [create_chunks] for one piece of a
    page; the state is the list of chunks and the running index. *)
Definition add_chunk (page_num : Z) (total : nat)
    (st : list DocChunk.t * Z) (ic : Z * string) : list DocChunk.t * Z :=
  let '(chunks, chunk_index) := st in
  let '(i, chunk_text) := ic in
  let chunk :=
    DocChunk.mk chunk_text page_num page_num chunk_index
      (ChunkMetadata.mk page_num i (Z.of_nat total)) None in
  (chunks ++ [chunk], chunk_index + 1)%Z.

(** [for chunk, embedding in zip(chunks, embeddings): chunk["embedding"] = ...] *)
Fixpoint assign_embeddings (chunks : list DocChunk.t) (embeddings : list vector)
    : list DocChunk.t :=
  match chunks, embeddings with
  | c :: cs, e :: es => DocChunk.set_embedding c e :: assign_embeddings cs es
  | _, _ => chunks
  end.

Section WithEnv.
Variable env : Env.

Definition add_page (st : list DocChunk.t * Z) (page : string * Z)
    : list DocChunk.t * Z :=
  let '(page_text, page_num) := page in
  let page_chunks := split_text env page_text in
  fold_left (add_chunk page_num (length page_chunks)) (enumerate page_chunks) st.

Definition create_chunks (pages : list (string * Z)) : list DocChunk.t :=
  fst (fold_left add_page pages ([], 0%Z)).

Definition generate_embeddings (chunks : list DocChunk.t) : M (list DocChunk.t) :=
  try_except
    (let texts := map DocChunk.content chunks in
     embeddings <- RAGService.embed_texts env texts ;;
     ret (assign_embeddings chunks embeddings))
    (λ e, raise e).



End WithEnv.
End DocumentProcessor.

(** ** ChatService (backend/app/services/chat_service.py) *)

Module ChatService.

Import Py.

Definition no_documents_text : string :=
  "I don't have access to any documents in this notebook. Please select some books or genres first.".

Definition no_information_text : string :=
  "I couldn't find any relevant information in the selected documents to answer your question. Please try rephrasing or ask about a different topic.".

Definition error_text : string :=
  "I apologize, but I encountered an error while processing your request. Please try again.".

Definition _format_chat_history (chat_history : list ChatMessage.t)
    : list HistoryEntry.t :=
  fold_left
    (λ formatted_history msg,
       (formatted_history
          ++ [HistoryEntry.mk "user" (ChatMessage.user_message msg)])
          ++ [HistoryEntry.mk "assistant" (ChatMessage.assistant_response msg)])
    chat_history [].

Definition page_value (p : option Z) : Value :=
  match p with
  | Some n => VInt n
  | None => VStr "?"
  end.

Definition content_preview (content : string) : string :=
  if decide (100 < len content)
  then slice_to 100 content +:+ "..."
  else content.

Definition citation_of (chunk : Chunk.t) : Citation.t :=
  Citation.mk
    (default "Unknown Book" (Chunk.book_title chunk))
    (default "Unknown Author" (Chunk.book_author chunk))
    (page_value (Chunk.page_start chunk))
    (page_value (Chunk.page_end chunk))
    (content_preview (Chunk.content chunk)).

Definition _extract_citations (chunks : list Chunk.t) : list Citation.t :=
  for_append citation_of chunks.

(** [{book["id"]: book for book in books_data}]: a later row replaces an
    earlier one with the same id. *)
Definition book_map_of (books_data : list Book.t) : gmap string Book.t :=
  fold_left (λ m book, <[Book.id book := book]> m) books_data ∅.

Definition with_book (book_map : gmap string Book.t) (chunk : Chunk.t) : Chunk.t :=
  match book_map !! Chunk.book_id chunk with
  | Some book =>
      Chunk.mk (Chunk.content chunk) (Chunk.book_id chunk)
        (Chunk.page_start chunk) (Chunk.page_end chunk)
        (Some (Book.title book)) (Some (Book.author book))
  | None => chunk
  end.

Section WithEnv.
Variable env : Env.

Definition _update_notebook_memory (notebook : Notebook.t)
    (question answer : string) : M string :=
  try_except
    (let current_summary := Notebook.memory_summary notebook in
     new_memory <- RAGService.update_memory_summary env current_summary
                     (Conversation.mk question answer) ;;
     ret new_memory)
    (λ _, ret (Notebook.memory_summary notebook)).

(** The loop over the genres of [process_chat]. *)
Fixpoint extend_by_genres (genres : list string) (book_ids : list string)
    : M (list string) :=
  match genres with
  | [] => ret book_ids
  | genre :: rest =>
      genre_books <- SupabaseService.get_books_by_genre env genre ;;
      extend_by_genres rest (book_ids ++ map Book.id genre_books)
  end.

(** The candidate book ids of a turn: [process_chat] from the reading of
    [selected_books] and [selected_genres] to the removal of duplicates
    (its lines 24 to 32).  The list extended in place is the one of the
    notebook dict read for this turn, which is not read again. *)
Definition candidate_book_ids (notebook : Notebook.t) : M (list string) :=
  let book_ids := Notebook.selected_books notebook in
  let genres := Notebook.selected_genres notebook in
  match book_ids, genres with
  | [], _ :: _ =>
      book_ids <- extend_by_genres genres book_ids ;;
      ret (list_set book_ids)
  | _, _ => ret book_ids
  end.

(** Adding book titles to the chunks found ([process_chat], lines 52 to
    62): the chunk dicts are updated in place and used afterwards for the
    context and for the citations. *)
Definition add_book_titles (relevant_chunks : list Chunk.t) : M (list Chunk.t) :=
  match relevant_chunks with
  | [] => ret relevant_chunks
  | _ =>
      let unique_book_ids := list_set (map Chunk.book_id relevant_chunks) in
      books_data <- SupabaseService.get_books_by_ids env unique_book_ids ;;
      let book_map := book_map_of books_data in
      ret (map (with_book book_map) relevant_chunks)
  end.

(** The rest of the turn once chunks were found ([process_chat], lines 72
    to 121): context, answer, citations, memory, key facts, and
    persistence. *)
Definition answer_turn (chat_request : ChatRequest.t) (notebook : Notebook.t)
    (relevant_chunks : list Chunk.t) : M ChatResponse.t :=
  let message := ChatRequest.message chat_request in
  let notebook_id := ChatRequest.notebook_id chat_request in
  let context := RAGService.create_context_from_chunks relevant_chunks in
  chat_history <- SupabaseService.get_chat_history env notebook_id 10 ;;
  rag_response <- RAGService.generate_response env message context
                    (_format_chat_history chat_history) ;;
  let answer := RagResponse.response rag_response in
  let citations := _extract_citations relevant_chunks in
  new_memory_summary <- _update_notebook_memory notebook message answer ;;
  new_key_facts <- RAGService.extract_key_facts env
                     (Conversation.mk message answer) ;;
  SupabaseService.save_chat_message env
    (ChatMessage.mk notebook_id message answer citations) ;;;
  SupabaseService.update_notebook_memory env notebook_id
    new_memory_summary new_key_facts ;;;
  ret (ChatResponse.mk answer citations new_memory_summary new_key_facts).

(** The turn for a non-empty candidate set ([process_chat], lines 42 to
    70): query embedding, vector search, book titles, and the answer when
    chunks were found. *)
Definition retrieve_and_answer (chat_request : ChatRequest.t) (notebook : Notebook.t)
    (book_ids : list string) : M ChatResponse.t :=
  query_embedding <- RAGService._generate_query_embedding env
                       (ChatRequest.message chat_request) ;;
  relevant_chunks <- SupabaseService.search_chunks_vector env
                       query_embedding book_ids 5 ;;
  relevant_chunks <- add_book_titles relevant_chunks ;;
  match relevant_chunks with
  | [] =>
      ret (ChatResponse.mk no_information_text []
             (Notebook.memory_summary notebook) (Notebook.key_facts notebook))
  | _ => answer_turn chat_request notebook relevant_chunks
  end.

(** The turn once the notebook was found ([process_chat], from line 24). *)
Definition with_notebook (chat_request : ChatRequest.t) (notebook : Notebook.t)
    : M ChatResponse.t :=
  book_ids <- candidate_book_ids notebook ;;
  match book_ids with
  | [] =>
      ret (ChatResponse.mk no_documents_text []
             (Notebook.memory_summary notebook) (Notebook.key_facts notebook))
  | _ => retrieve_and_answer chat_request notebook book_ids
  end.

Definition process_chat_body (chat_request : ChatRequest.t) : M ChatResponse.t :=
  notebook <- SupabaseService.get_notebook_by_id env
                (ChatRequest.notebook_id chat_request)
                (Some (ChatRequest.user_id chat_request)) ;;
  match notebook with
  | None =>
      raise (ValueError ("Notebook " +:+ ChatRequest.notebook_id chat_request
                           +:+ " not found"))
  | Some notebook => with_notebook chat_request notebook
  end.

Definition process_chat (chat_request : ChatRequest.t) : M ChatResponse.t :=
  try_except (process_chat_body chat_request)
    (λ _, ret (ChatResponse.mk error_text [] "" [])).

End WithEnv.
End ChatService.

(** ** Vocabulary of the properties *)

(** The indices [idx, idx + 1, ..] given to [n] consecutive chunks. *)
Definition indices_from (idx : Z) (n : nat) : list Z :=
  map (λ k, (idx + Z.of_nat k)%Z) (seq 0 n).

(** The number of pieces the splitter makes of all the pages. *)
Definition total_pieces (env : Env) (pages : list (string * Z)) : nat :=
  sum_list_with (λ page, length (split_text env page.1)) pages.

(** The world after the calls [cs] were logged. *)
Definition logged (w : World) (cs : list Call) : World :=
  mkWorld (books w) (notebooks w) (chat_messages w) (calls w ++ cs).

(** A computation only appends to the call log, and every call it appends
    satisfies [P]. *)
Definition emits {A} (P : Call → Prop) (m : M A) : Prop :=
  ∀ w, ∃ cs, calls (m w).2 = calls w ++ cs ∧ Forall P cs.

(** A call that is not a vector search over an empty candidate list. *)
Definition scoped_search (c : Call) : Prop :=
  ∀ q k ids, c = DbCall (MatchDocuments q k ids) → ids ≠ [].

(** [P] holds of every call other than a vector search. *)
Definition other_calls (P : Call → Prop) : Prop :=
  (∀ nid uid, P (DbCall (GetNotebook nid uid)))
  ∧ (∀ genre, P (DbCall (BooksByGenre genre)))
  ∧ (∀ ids, P (DbCall (BooksByIds ids)))
  ∧ (∀ nid limit, P (DbCall (ChatHistory nid limit)))
  ∧ (∀ row, P (DbCall (SaveChatMessage row)))
  ∧ (∀ nid memory facts, P (DbCall (UpdateNotebookMemory nid memory facts)))
  ∧ (∀ texts, P (EmbedCall texts))
  ∧ (∀ messages, P (LlmCall messages)).

(** The turn [chat_request], started in the world [w], finds the notebook
    [notebook] and, for a non-empty candidate set, the non-empty list
    [chunks] of chunks with their book titles; [w'] is the world at that
    point. *)
Definition finds (env : Env) (chat_request : ChatRequest.t) (w : World)
    (notebook : Notebook.t) (chunks : list Chunk.t) (w' : World) : Prop :=
  ∃ w1 book_ids w2 query_embedding w3 found w4,
    SupabaseService.get_notebook_by_id env (ChatRequest.notebook_id chat_request)
      (Some (ChatRequest.user_id chat_request)) w = (Ok (Some notebook), w1)
    ∧ ChatService.candidate_book_ids env notebook w1 = (Ok book_ids, w2)
    ∧ book_ids ≠ []
    ∧ RAGService._generate_query_embedding env (ChatRequest.message chat_request) w2
      = (Ok query_embedding, w3)
    ∧ SupabaseService.search_chunks_vector env query_embedding book_ids 5 w3
      = (Ok found, w4)
    ∧ ChatService.add_book_titles env found w4 = (Ok chunks, w')
    ∧ chunks ≠ [].

Definition message_content (m : Message) : string :=
  match m with
  | SystemMessage content => content
  | HumanMessage content => content
  end.

(** The window of history in the words of the answer generator's
    description: between the system instruction and the current query, the
    messages are the last five turns, a user message and an assistant
    message for each. *)
Definition last_turns_window (chat_history : list ChatMessage.t)
    (messages : list Message) : Prop :=
  ∃ middle query,
    messages = SystemMessage RAGService.system_prompt :: middle ++ [query]
    ∧ map message_content middle
      = flat_map (λ turn, [ChatMessage.user_message turn;
                           ChatMessage.assistant_response turn])
          (Py.lastn 5 chat_history).

(** The number of occurrences of [sub] in [s]: the positions of [s] at which
    [sub] starts. *)
Fixpoint occurrences (sub s : string) : nat :=
  match s with
  | EmptyString => 0
  | String _ s' => (if String.prefix sub s then 1 else 0) + occurrences sub s'
  end.

(** [s] without its first [k] characters. *)
Fixpoint string_drop (k : nat) (s : string) : string :=
  match k, s with
  | S k', String _ s' => string_drop k' s'
  | _, _ => s
  end.

(** The character [c] does not occur in [s]. *)
Fixpoint no_char (c : ascii) (s : string) : Prop :=
  match s with
  | EmptyString => True
  | String d s' => d ≠ c ∧ no_char c s'
  end.

(** A character other than the last four of the tag ["[From"]: a string that
    starts with it cannot complete a tag begun before it. *)
Definition not_tag_tail (c : ascii) : Prop :=
  c ≠ "F"%char ∧ c ≠ "r"%char ∧ c ≠ "o"%char ∧ c ≠ "m"%char.

(** ** The effective document scope of a notebook, in the words of the
       data model

    The union of the selected books and of all books whose genre is among the
    selected genres, as a set. *)
Definition effective_scope (notebook : Notebook.t) (all_books : list Book.t)
    : gset string :=
  list_to_set (Notebook.selected_books notebook)
  ∪ list_to_set
      (map Book.id
         (filter (λ b, Book.genre b ∈ Notebook.selected_genres notebook) all_books)).

(** [sub] occurs in [s]. *)
Definition contains (sub s : string) : Prop :=
  ∃ a b, s = a +:+ sub +:+ b.

(** ** A small library and notebooks, used to run the model *)

Module Demo.

Definition library : list Book.t :=
  [Book.mk "b1" "Decline and Fall" "Gibbon" "history" "gibbon.pdf" 2;
   Book.mk "b2" "Opticks" "Newton" "science" "opticks.pdf" 3;
   Book.mk "b3" "The Histories" "Herodotus" "history" "histories.pdf" 4].

(** When the notebooks of the shelf were last written. *)
Definition t0 : string := "2024-05-01T10:00:00".

(** [n1] selects a book and a genre, [n2] nothing, [n3] genres only. *)
Definition shelf : gmap string Notebook.t :=
  <["n1" := Notebook.mk "u1" "mixed" ["b1"] ["science"] "" [] t0]>
  (<["n2" := Notebook.mk "u1" "empty" [] [] "earlier summary" ["- a fact"] t0]>
  (<["n3" := Notebook.mk "u1" "genres" [] ["history"; "science"] "earlier summary" [] t0]> ∅)).

Definition turn (n : nat) : ChatMessage.t :=
  ChatMessage.mk "n3" ("q" +:+ Py.str_of_int (Z.of_nat n))
    ("a" +:+ Py.str_of_int (Z.of_nat n)) [].

Definition world0 : World := mkWorld library shelf [] [].

(** The same store with three earlier turns of notebook [n3]. *)
Definition world3 : World := mkWorld library shelf [turn 1; turn 2; turn 3] [].

(** A vector search that answers with one chunk per candidate book. *)
Definition one_chunk_per_book (q : vector) (k : Z) (ids : list string)
    : list Chunk.t :=
  map (λ i, Chunk.mk ("text of " +:+ i) i (Some 1%Z) (Some 2%Z) None None)
    (take (Z.to_nat k) ids).

Definition llm_ok (messages : list Message) : Result string :=
  match messages with
  | [SystemMessage "You are a helpful assistant that creates concise summaries."; _] =>
      Ok "updated summary"
  | [SystemMessage "You are a helpful assistant that extracts key facts."; _] =>
      Ok ("- first fact" +:+ Py.nl +:+ "not a fact" +:+ Py.nl +:+ " - second fact ")
  | _ => Ok "the answer"
  end.

(** The LLM fails on answer generation only. *)
Definition llm_no_answer (messages : list Message) : Result string :=
  match messages with
  | [SystemMessage "You are a helpful assistant that creates concise summaries."; _] =>
      Ok "updated summary"
  | [SystemMessage "You are a helpful assistant that extracts key facts."; _] =>
      Ok "- first fact"
  | _ => Raise (ExternalError "llm")
  end.

(** The LLM fails on the memory summary only. *)
Definition llm_no_summary (messages : list Message) : Result string :=
  match messages with
  | [SystemMessage "You are a helpful assistant that creates concise summaries."; _] =>
      Raise (ExternalError "llm")
  | [SystemMessage "You are a helpful assistant that extracts key facts."; _] =>
      Ok "- first fact"
  | _ => Ok "the answer"
  end.

Definition embed_ok (texts : list string) : Result (list vector) :=
  Ok (map (λ _, [QArith_base.Qmake 1 2]) texts).


Definition one_piece (page_text : string) : list string := [page_text].

Definition two_pages (file_path : string) : Result (list (string * Z)) :=
  Ok [("first page", 1%Z); ("second page", 2%Z)].

(** A clock that shows the same time at every reading. *)
Definition clock (cs : list Call) : string := "2024-05-02T09:00:00".

Definition env_with (llm : list Message → Result string)
    (emb : list string → Result (list vector)) : Env :=
  mkEnv (λ _, false) one_chunk_per_book emb llm
    (λ _, QArith_base.Qmake 0 1) one_piece two_pages clock.

Definition env : Env := env_with llm_ok embed_ok.

Definition request (notebook_id : string) : ChatRequest.t :=
  ChatRequest.mk notebook_id "What happened?" "u1".

(** A chunk whose book title contains the tag counted by answer
    generation, and one whose content does. *)
Definition tagged_title : Chunk.t :=
  Chunk.mk "plain text" "b9" None None (Some "[From the author") None.

Definition tagged_content : Chunk.t :=
  Chunk.mk "see [From here]" "b9" (Some 3%Z) (Some 3%Z) (Some "Notes") None.

End Demo.

(** ** Stores that fail

    The demonstration library with a store that raises on some requests. *)

Module Outage.

Definition search_down (op : DbOp) : bool :=
  match op with
  | MatchDocuments _ _ _ => true
  | _ => false
  end.

Definition save_down (op : DbOp) : bool :=
  match op with
  | SaveChatMessage _ => true
  | _ => false
  end.

Definition update_down (op : DbOp) : bool :=
  match op with
  | UpdateNotebookMemory _ _ _ => true
  | _ => false
  end.

Definition env_failing (fails : DbOp → bool) : Env :=
  mkEnv fails Demo.one_chunk_per_book Demo.embed_ok Demo.llm_ok
    (λ _, QArith_base.Qmake 0 1) Demo.one_piece Demo.two_pages Demo.clock.

(** A model that returns one vector only, whatever the number of texts. *)
Definition embed_one (texts : list string) : Result (list vector) :=
  Ok [[QArith_base.Qmake 1 2]].

End Outage.

(** * Properties *)

(** ** Running computations *)

Lemma for_append_from {A B} (f : A → B) (l : list A) (acc : list B) :
  fold_left (λ acc x, acc ++ [f x]) l acc = acc ++ map f l.
Proof.
  revert acc. induction l as [|x l IH]; intros acc; simpl.
  - by rewrite app_nil_r.
  - rewrite IH. by rewrite <- app_assoc.
Qed.

Lemma map_fmap {A B} (f : A → B) (l : list A) : map f l = f <$> l.
Proof. reflexivity. Qed.

Lemma for_append_map {A B} (f : A → B) (l : list A) :
  Py.for_append f l = map f l.
Proof. unfold Py.for_append. by rewrite for_append_from. Qed.

(** ** The chunker: chunk indices *)

Section ChunkIndex.
Variable env : Env.

Import DocumentProcessor.

Lemma indices_from_S idx n :
  indices_from idx (S n) = idx :: indices_from (idx + 1) n.
Proof.
  unfold indices_from. simpl. rewrite Z.add_0_r. f_equal.
  rewrite <- seq_shift, map_map. apply map_ext. intros k. lia.
Qed.

Lemma indices_from_add idx n m :
  indices_from idx (n + m)
  = indices_from idx n ++ indices_from (idx + Z.of_nat n) m.
Proof.
  revert idx. induction n as [|n IH]; intros idx.
  - simpl. by rewrite Z.add_0_r.
  - rewrite Nat.add_succ_l, (indices_from_S idx (n + m)), (indices_from_S idx n), IH.
    simpl. do 3 f_equal. lia.
Qed.

Lemma add_chunk_fold page_num total ics chunks idx :
  let st := fold_left (add_chunk page_num total) ics (chunks, idx) in
  map DocChunk.chunk_index st.1
  = map DocChunk.chunk_index chunks ++ indices_from idx (length ics)
  ∧ st.2 = (idx + Z.of_nat (length ics))%Z
  ∧ length st.1 = length chunks + length ics.
Proof.
  revert chunks idx. induction ics as [|[i text] ics IH]; intros chunks idx.
  - simpl. rewrite app_nil_r, Z.add_0_r. done.
  - cbn [fold_left add_chunk]. destruct (IH
      (chunks ++ [DocChunk.mk text page_num page_num idx
                    (ChunkMetadata.mk page_num i (Z.of_nat total)) None])
      (idx + 1)%Z) as (Hidx & Hnext & Hlen).
    cbn zeta in *. rewrite Hidx, Hnext, Hlen.
    cbn [length]. rewrite map_app, length_app, indices_from_S, <- app_assoc.
    simpl. repeat split; lia.
Qed.

Lemma add_page_fold page chunks idx :
  let st := add_page env (chunks, idx) page in
  let n := length (split_text env page.1) in
  map DocChunk.chunk_index st.1
  = map DocChunk.chunk_index chunks ++ indices_from idx n
  ∧ st.2 = (idx + Z.of_nat n)%Z
  ∧ length st.1 = length chunks + n.
Proof.
  destruct page as [page_text page_num]. cbn [add_page fst].
  pose proof (add_chunk_fold page_num (length (split_text env page_text))
                (Py.enumerate (split_text env page_text)) chunks idx) as H.
  unfold Py.enumerate in H at 2 3 4. rewrite length_imap in H. exact H.
Qed.

Lemma total_pieces_cons page pages :
  total_pieces env (page :: pages)
  = length (split_text env page.1) + total_pieces env pages.
Proof. reflexivity. Qed.

Lemma add_pages_fold pages chunks idx :
  let st := fold_left (add_page env) pages (chunks, idx) in
  map DocChunk.chunk_index st.1
  = map DocChunk.chunk_index chunks ++ indices_from idx (total_pieces env pages)
  ∧ length st.1 = length chunks + total_pieces env pages.
Proof.
  revert chunks idx. induction pages as [|page pages IH]; intros chunks idx.
  - simpl. rewrite app_nil_r. done.
  - cbn [fold_left].
    destruct (add_page_fold page chunks idx) as (Hidx & Hnext & Hlen).
    destruct (add_page env (chunks, idx) page) as [chunks' idx'].
    cbn [fst snd] in *. destruct (IH chunks' idx') as [Hidx' Hlen'].
    cbn zeta in *. rewrite Hidx', Hlen', Hidx, Hnext, Hlen.
    rewrite total_pieces_cons, indices_from_add, <- app_assoc. split; [done | lia].
Qed.

Lemma create_chunks_indices pages :
  map DocChunk.chunk_index (create_chunks env pages)
  = indices_from 0 (total_pieces env pages)
  ∧ length (create_chunks env pages) = total_pieces env pages.
Proof.
  unfold create_chunks.
  destruct (add_pages_fold pages [] 0%Z) as [Hidx Hlen]. done.
Qed.

Lemma total_pieces_app pages1 pages2 :
  total_pieces env (pages1 ++ pages2) = total_pieces env pages1 + total_pieces env pages2.
Proof. unfold total_pieces. by rewrite sum_list_with_app. Qed.

Lemma indices_from_0 n : indices_from 0 n = map Z.of_nat (seq 0 n).
Proof. unfold indices_from. apply map_ext. intros k. lia. Qed.

Lemma indices_from_shift idx n :
  indices_from idx n = map (λ i, (i + idx)%Z) (indices_from 0 n).
Proof. unfold indices_from. rewrite map_map. apply map_ext. intros k. lia. Qed.

Lemma indices_from_sorted idx n : StronglySorted Z.lt (indices_from idx n).
Proof.
  revert idx. induction n as [|n IH]; intros idx.
  - constructor.
  - rewrite indices_from_S. constructor; [apply IH|].
    apply Forall_forall. intros x Hx. unfold indices_from in Hx.
    apply list_elem_of_In, in_map_iff in Hx as (k & <- & _). lia.
Qed.

Lemma indices_from_NoDup idx n : NoDup (indices_from idx n).
Proof.
  unfold indices_from. rewrite map_fmap.
  apply NoDup_fmap_2; [|apply NoDup_seq]. intros a b Hab. lia.
Qed.

End ChunkIndex.

(** C6.  For every sequence of pages, the chunk records produced by the
    chunker carry the indices 0, 1, 2, .. in emission order: they are
    pairwise distinct, strictly increasing, and as many as the pieces of all
    pages together.  The index runs on across pages: the chunks of the pages
    that follow continue from the number of chunks made so far. *)
Theorem create_chunks_index_global (env : Env) (pages more : list (string * Z)) :
  map DocChunk.chunk_index (DocumentProcessor.create_chunks env pages)
  = map Z.of_nat (seq 0 (length (DocumentProcessor.create_chunks env pages)))
  ∧ NoDup (map DocChunk.chunk_index (DocumentProcessor.create_chunks env pages))
  ∧ StronglySorted Z.lt
      (map DocChunk.chunk_index (DocumentProcessor.create_chunks env pages))
  ∧ length (DocumentProcessor.create_chunks env pages) = total_pieces env pages
  ∧ map DocChunk.chunk_index (DocumentProcessor.create_chunks env (pages ++ more))
    = map DocChunk.chunk_index (DocumentProcessor.create_chunks env pages)
      ++ map (λ c, (DocChunk.chunk_index c
                    + Z.of_nat (length (DocumentProcessor.create_chunks env pages)))%Z)
           (DocumentProcessor.create_chunks env more).
Proof.
  destruct (create_chunks_indices env pages) as [Hidx Hlen].
  destruct (create_chunks_indices env more) as [Hidx' Hlen'].
  destruct (create_chunks_indices env (pages ++ more)) as [Hidx'' _].
  rewrite Hidx, Hlen. split; [|split; [|split; [|split]]].
  - apply indices_from_0.
  - apply indices_from_NoDup.
  - apply indices_from_sorted.
  - reflexivity.
  - rewrite Hidx'', total_pieces_app, indices_from_add. f_equal.
    rewrite <- (map_map DocChunk.chunk_index
                 (λ i, (i + Z.of_nat (total_pieces env pages))%Z)), Hidx'.
    rewrite Z.add_0_l. apply indices_from_shift.
Qed.

(** ** Citations *)

Lemma append_cons (c : ascii) (a b : string) :
  String c a +:+ b = String c (a +:+ b).
Proof. reflexivity. Qed.

Lemma substring_prefix (n : nat) (s : string) :
  n ≤ String.length s →
  ∃ rest, s = substring 0 n s +:+ rest ∧ String.length (substring 0 n s) = n.
Proof.
  revert s. induction n as [|n IH]; intros s Hn.
  - exists s. by destruct s.
  - destruct s as [|c s]; simpl in Hn; [lia|].
    destruct (IH s) as (rest & Hs & Hl); [lia|].
    exists rest. simpl. rewrite Hl, append_cons, <- Hs. done.
Qed.

(** C8.  Citation extraction emits one citation per chunk, in order.  Title
    and author default to "Unknown Book" and "Unknown Author", a page field
    to "?".  The preview is the content when it has at most 100 characters,
    and otherwise its first 100 characters followed by "...". *)
Theorem extract_citations_per_chunk (chunks : list Chunk.t) :
  Forall2
    (λ chunk c,
       Citation.book_title c
         = match Chunk.book_title chunk with Some t => t | None => "Unknown Book" end
       ∧ Citation.book_author c
         = match Chunk.book_author chunk with Some a => a | None => "Unknown Author" end
       ∧ Citation.page_start c
         = match Chunk.page_start chunk with Some p => VInt p | None => VStr "?" end
       ∧ Citation.page_end c
         = match Chunk.page_end chunk with Some p => VInt p | None => VStr "?" end
       ∧ (String.length (Chunk.content chunk) ≤ 100 →
          Citation.content_preview c = Chunk.content chunk)
       ∧ (100 < String.length (Chunk.content chunk) →
          ∃ first rest,
            Chunk.content chunk = first +:+ rest
            ∧ String.length first = 100
            ∧ Citation.content_preview c = first +:+ "..."))
    chunks (ChatService._extract_citations chunks).
Proof.
  unfold ChatService._extract_citations. rewrite for_append_map.
  induction chunks as [|chunk chunks IH]; simpl; constructor; [|exact IH].
  unfold ChatService.citation_of, ChatService.content_preview, Py.len. simpl.
  do 4 (split; [reflexivity|]). split.
  - intros Hle. destruct (decide _); [lia | done].
  - intros Hgt. destruct (decide _); [|lia].
    destruct (substring_prefix 100 (Chunk.content chunk)) as (rest & Hc & Hl); [lia|].
    exists (substring 0 100 (Chunk.content chunk)), rest. done.
Qed.

(** ** Running the monad *)

Lemma bind_ok {A B} (m : M A) (k : A → M B) w a w1 :
  m w = (Ok a, w1) → bind m k w = k a w1.
Proof. intros H. unfold bind. by rewrite H. Qed.


Lemma try_ok {A} (m : M A) h w a w1 :
  m w = (Ok a, w1) → try_except m h w = (Ok a, w1).
Proof. intros H. unfold try_except. by rewrite H. Qed.


Lemma try_bind_ok {A B} (m : M A) (k : A → M B) h w a w1 :
  m w = (Ok a, w1) → try_except (bind m k) h w = try_except (k a) h w1.
Proof. intros H. unfold try_except. by rewrite (bind_ok _ _ _ _ _ H). Qed.

Lemma lift_run {A} (r : Result A) w : lift r w = (r, w).
Proof. by destruct r. Qed.

Lemma logged_logged w cs cs' : logged (logged w cs) cs' = logged w (cs ++ cs').
Proof. unfold logged. simpl. by rewrite <- app_assoc. Qed.

Lemma logged_nil w : logged w [] = w.
Proof. destruct w. unfold logged. simpl. by rewrite app_nil_r. Qed.

(** ** The store service, run *)

Section StoreRuns.
Variable env : Env.

Import SupabaseService.

Lemma execute_run op w :
  execute env op w
  = (if db_fails env op then Raise (ExternalError "store") else Ok tt,
     logged w [DbCall op]).
Proof. unfold execute, bind, log_call. simpl. by destruct (db_fails env op). Qed.

Lemma get_books_by_genre_run genre w :
  get_books_by_genre env genre w
  = (Ok (if db_fails env (BooksByGenre genre) then []
         else filter (λ b, Book.genre b = genre) (books w)),
     logged w [DbCall (BooksByGenre genre)]).
Proof.
  unfold get_books_by_genre, try_except, bind. rewrite execute_run.
  by destruct (db_fails env _).
Qed.

Lemma get_books_by_ids_run book_ids w :
  get_books_by_ids env book_ids w
  = (Ok (match book_ids with
         | [] => []
         | _ => if db_fails env (BooksByIds book_ids) then []
                else filter (λ b, Book.id b ∈ book_ids) (books w)
         end),
     match book_ids with
     | [] => w
     | _ => logged w [DbCall (BooksByIds book_ids)]
     end).
Proof.
  unfold get_books_by_ids, try_except, bind. destruct book_ids as [|i ids]; [done|].
  rewrite execute_run. by destruct (db_fails env _).
Qed.

Lemma search_chunks_vector_run q ids k w :
  search_chunks_vector env q ids k w
  = (Ok (if db_fails env (MatchDocuments q k ids) then []
         else match_documents env q k ids),
     logged w [DbCall (MatchDocuments q k ids)]).
Proof.
  unfold search_chunks_vector, try_except, bind. rewrite execute_run.
  by destruct (db_fails env _).
Qed.

Lemma get_notebook_by_id_run nid uid w :
  get_notebook_by_id env nid uid w
  = (Ok (if db_fails env (GetNotebook nid uid) then None
         else match notebooks w !! nid with
              | Some nb => if user_filter uid nb then Some nb else None
              | None => None
              end),
     logged w [DbCall (GetNotebook nid uid)]).
Proof.
  unfold get_notebook_by_id, try_except, bind. rewrite execute_run.
  by destruct (db_fails env _).
Qed.

Lemma get_chat_history_run nid limit w :
  get_chat_history env nid limit w
  = (Ok (if db_fails env (ChatHistory nid limit) then []
         else take limit
                (filter (λ m, ChatMessage.notebook_id m = nid) (chat_messages w))),
     logged w [DbCall (ChatHistory nid limit)]).
Proof.
  unfold get_chat_history, try_except, bind. rewrite execute_run.
  by destruct (db_fails env _).
Qed.

Lemma save_chat_message_run row w :
  save_chat_message env row w
  = if db_fails env (SaveChatMessage row)
    then (Raise (ExternalError "store"), logged w [DbCall (SaveChatMessage row)])
    else (Ok (Some row),
          mkWorld (books w) (notebooks w) (chat_messages w ++ [row])
            (calls w ++ [DbCall (SaveChatMessage row)])).
Proof.
  unfold save_chat_message, try_except, bind. rewrite execute_run.
  by destruct (db_fails env _).
Qed.

Lemma update_notebook_memory_run nid memory facts w :
  update_notebook_memory env nid memory facts w
  = if db_fails env (UpdateNotebookMemory nid memory facts)
    then (Ok false, logged w [DbCall (UpdateNotebookMemory nid memory facts)])
    else (Ok (bool_decide (is_Some (notebooks w !! nid))),
          mkWorld (books w)
            (alter (set_memory memory facts (utcnow env (calls w))) nid (notebooks w))
            (chat_messages w) (calls w ++ [DbCall (UpdateNotebookMemory nid memory facts)])).
Proof.
  unfold update_notebook_memory, try_except, bind, get_world. rewrite execute_run.
  by destruct (db_fails env _).
Qed.

End StoreRuns.

(** ** The RAG service, run *)

Section RagRuns.
Variable env : Env.

Import RAGService.

Lemma invoke_run messages w :
  invoke env messages w = (llm_invoke env messages, logged w [LlmCall messages]).
Proof. unfold invoke, bind, log_call. simpl. apply lift_run. Qed.

Lemma embed_texts_run texts w :
  embed_texts env texts w = (embed env texts, logged w [EmbedCall texts]).
Proof. unfold embed_texts, bind, log_call. simpl. apply lift_run. Qed.

Lemma generate_query_embedding_run query w :
  _generate_query_embedding env query w
  = (Ok (match embed env [query] with
         | Ok (query_embedding :: _) => query_embedding
         | _ => random_rand env 384
         end),
     logged w [EmbedCall [query]]).
Proof.
  unfold _generate_query_embedding, try_except, bind. rewrite embed_texts_run.
  by destruct (embed env [query]) as [[|v vs]|e].
Qed.

Lemma generate_response_run query context history w :
  generate_response env query context history w
  = (Ok (match llm_invoke env (build_messages query context history) with
         | Ok content =>
             RagResponse.mk content context
               (Z.of_nat (length (Py.split from_tag context)) - 1)
         | Raise _ => RagResponse.mk error_text "" 0
         end),
     logged w [LlmCall (build_messages query context history)]).
Proof.
  unfold generate_response, try_except, bind. rewrite invoke_run.
  by destruct (llm_invoke env _).
Qed.

Lemma update_memory_summary_run current conversation w :
  update_memory_summary env current conversation w
  = (Ok (match llm_invoke env (memory_messages current conversation) with
         | Ok content => content
         | Raise _ => current
         end),
     logged w [LlmCall (memory_messages current conversation)]).
Proof.
  unfold update_memory_summary, try_except. rewrite invoke_run.
  by destruct (llm_invoke env _).
Qed.

Lemma extract_key_facts_run conversation w :
  extract_key_facts env conversation w
  = (Ok (match llm_invoke env (facts_messages conversation) with
         | Ok content => parse_facts content
         | Raise _ => []
         end),
     logged w [LlmCall (facts_messages conversation)]).
Proof.
  unfold extract_key_facts, try_except, bind. rewrite invoke_run.
  by destruct (llm_invoke env _).
Qed.

End RagRuns.

(** ** What a computation appends to the call log *)

Lemma emits_ret {A} P (a : A) : emits P (ret a).
Proof. intros w. exists []. simpl. by rewrite app_nil_r. Qed.

Lemma emits_raise {A} P e : emits P (@raise A e).
Proof. intros w. exists []. simpl. by rewrite app_nil_r. Qed.

Lemma emits_bind {A B} P (m : M A) (k : A → M B) :
  emits P m → (∀ a, emits P (k a)) → emits P (bind m k).
Proof.
  intros Hm Hk w. destruct (Hm w) as (cs & Hcs & HP). unfold bind.
  destruct (m w) as [[a|e] w1]; simpl in *.
  - destruct (Hk a w1) as (cs' & Hcs' & HP'). exists (cs ++ cs').
    rewrite Hcs', Hcs, <- app_assoc. split; [done | by apply Forall_app].
  - by exists cs.
Qed.

Lemma emits_try {A} P (m : M A) (h : exn → M A) :
  emits P m → (∀ e, emits P (h e)) → emits P (try_except m h).
Proof.
  intros Hm Hh w. destruct (Hm w) as (cs & Hcs & HP). unfold try_except.
  destruct (m w) as [[a|e] w1]; simpl in *.
  - by exists cs.
  - destruct (Hh e w1) as (cs' & Hcs' & HP'). exists (cs ++ cs').
    rewrite Hcs', Hcs, <- app_assoc. split; [done | by apply Forall_app].
Qed.

Lemma emits_single {A} P (m : M A) c :
  (∀ w, calls (m w).2 = calls w ++ [c]) → P c → emits P m.
Proof. intros Hm Hc w. exists [c]. split; [apply Hm | by constructor]. Qed.

Section Emits.
Variable env : Env.
Variable P : Call → Prop.

Lemma emits_get_books_by_genre genre :
  P (DbCall (BooksByGenre genre)) →
  emits P (SupabaseService.get_books_by_genre env genre).
Proof. apply emits_single. intros w. by rewrite get_books_by_genre_run. Qed.

Lemma emits_get_books_by_ids ids :
  P (DbCall (BooksByIds ids)) →
  emits P (SupabaseService.get_books_by_ids env ids).
Proof.
  intros HP w. rewrite get_books_by_ids_run. destruct ids as [|i ids].
  - exists []. simpl. by rewrite app_nil_r.
  - exists [DbCall (BooksByIds (i :: ids))]. split; [done | by constructor].
Qed.

Lemma emits_search_chunks_vector q ids k :
  P (DbCall (MatchDocuments q k ids)) →
  emits P (SupabaseService.search_chunks_vector env q ids k).
Proof. apply emits_single. intros w. by rewrite search_chunks_vector_run. Qed.

Lemma emits_get_notebook_by_id nid uid :
  P (DbCall (GetNotebook nid uid)) →
  emits P (SupabaseService.get_notebook_by_id env nid uid).
Proof. apply emits_single. intros w. by rewrite get_notebook_by_id_run. Qed.

Lemma emits_get_chat_history nid limit :
  P (DbCall (ChatHistory nid limit)) →
  emits P (SupabaseService.get_chat_history env nid limit).
Proof. apply emits_single. intros w. by rewrite get_chat_history_run. Qed.

Lemma emits_save_chat_message row :
  P (DbCall (SaveChatMessage row)) →
  emits P (SupabaseService.save_chat_message env row).
Proof.
  apply emits_single. intros w. rewrite save_chat_message_run.
  by destruct (db_fails env _).
Qed.

Lemma emits_update_notebook_memory nid memory facts :
  P (DbCall (UpdateNotebookMemory nid memory facts)) →
  emits P (SupabaseService.update_notebook_memory env nid memory facts).
Proof.
  apply emits_single. intros w. rewrite update_notebook_memory_run.
  by destruct (db_fails env _).
Qed.

Lemma emits_generate_query_embedding query :
  P (EmbedCall [query]) →
  emits P (RAGService._generate_query_embedding env query).
Proof. apply emits_single. intros w. by rewrite generate_query_embedding_run. Qed.

Lemma emits_generate_response query context history :
  P (LlmCall (RAGService.build_messages query context history)) →
  emits P (RAGService.generate_response env query context history).
Proof. apply emits_single. intros w. by rewrite generate_response_run. Qed.

Lemma emits_update_memory_summary current conversation :
  P (LlmCall (RAGService.memory_messages current conversation)) →
  emits P (RAGService.update_memory_summary env current conversation).
Proof. apply emits_single. intros w. by rewrite update_memory_summary_run. Qed.

Lemma emits_extract_key_facts conversation :
  P (LlmCall (RAGService.facts_messages conversation)) →
  emits P (RAGService.extract_key_facts env conversation).
Proof. apply emits_single. intros w. by rewrite extract_key_facts_run. Qed.

Lemma emits_extend_by_genres genres ids :
  (∀ genre, P (DbCall (BooksByGenre genre))) →
  emits P (ChatService.extend_by_genres env genres ids).
Proof.
  intros HP. revert ids. induction genres as [|genre genres IH]; intros ids.
  - apply emits_ret.
  - simpl. apply emits_bind; [by apply emits_get_books_by_genre|].
    intros genre_books. apply IH.
Qed.

Lemma emits_candidate_book_ids notebook :
  (∀ genre, P (DbCall (BooksByGenre genre))) →
  emits P (ChatService.candidate_book_ids env notebook).
Proof.
  intros HP. unfold ChatService.candidate_book_ids.
  destruct (Notebook.selected_books notebook) as [|b bs]; [|apply emits_ret].
  destruct (Notebook.selected_genres notebook) as [|g gs]; [apply emits_ret|].
  apply emits_bind; [by apply emits_extend_by_genres|]. intros ids. apply emits_ret.
Qed.

Lemma emits_add_book_titles chunks :
  (∀ ids, P (DbCall (BooksByIds ids))) →
  emits P (ChatService.add_book_titles env chunks).
Proof.
  intros HP. unfold ChatService.add_book_titles.
  destruct chunks as [|c cs]; [apply emits_ret|].
  apply emits_bind; [by apply emits_get_books_by_ids|]. intros books_data.
  apply emits_ret.
Qed.

Lemma emits_update_notebook_memory_step notebook question answer :
  (∀ messages, P (LlmCall messages)) →
  emits P (ChatService._update_notebook_memory env notebook question answer).
Proof.
  intros HP. unfold ChatService._update_notebook_memory.
  apply emits_try; [|intros; apply emits_ret].
  apply emits_bind; [by apply emits_update_memory_summary|].
  intros s. apply emits_ret.
Qed.

Lemma emits_answer_turn chat_request notebook chunks :
  other_calls P → emits P (ChatService.answer_turn env chat_request notebook chunks).
Proof.
  intros (Hnb & Hg & Hids & Hh & Hs & Hu & He & Hl). unfold ChatService.answer_turn.
  apply emits_bind; [by apply emits_get_chat_history|]. intros chat_history.
  apply emits_bind; [by apply emits_generate_response|]. intros rag_response.
  apply emits_bind; [by apply emits_update_notebook_memory_step|]. intros memory.
  apply emits_bind; [by apply emits_extract_key_facts|]. intros facts.
  apply emits_bind; [by apply emits_save_chat_message|]. intros _.
  apply emits_bind; [by apply emits_update_notebook_memory|]. intros _.
  apply emits_ret.
Qed.

Lemma emits_retrieve_and_answer chat_request notebook book_ids :
  other_calls P → (∀ q k, P (DbCall (MatchDocuments q k book_ids))) →
  emits P (ChatService.retrieve_and_answer env chat_request notebook book_ids).
Proof.
  intros Ho Hm. pose proof Ho as (Hnb & Hg & Hids & Hh & Hs & Hu & He & Hl).
  unfold ChatService.retrieve_and_answer.
  apply emits_bind; [by apply emits_generate_query_embedding|]. intros q.
  apply emits_bind; [by apply emits_search_chunks_vector|]. intros found.
  apply emits_bind; [by apply emits_add_book_titles|]. intros [|c cs].
  - apply emits_ret.
  - by apply emits_answer_turn.
Qed.

Lemma emits_with_notebook chat_request notebook :
  other_calls P → (∀ q k i ids, P (DbCall (MatchDocuments q k (i :: ids)))) →
  emits P (ChatService.with_notebook env chat_request notebook).
Proof.
  intros Ho Hm. pose proof Ho as (Hnb & Hg & Hids & Hh & Hs & Hu & He & Hl).
  unfold ChatService.with_notebook.
  apply emits_bind; [by apply emits_candidate_book_ids|]. intros [|i ids].
  - apply emits_ret.
  - apply emits_retrieve_and_answer; [done|]. intros q k. apply Hm.
Qed.

Lemma emits_process_chat chat_request :
  other_calls P → (∀ q k i ids, P (DbCall (MatchDocuments q k (i :: ids)))) →
  emits P (ChatService.process_chat env chat_request).
Proof.
  intros Ho Hm. pose proof Ho as (Hnb & Hg & Hids & Hh & Hs & Hu & He & Hl).
  unfold ChatService.process_chat, ChatService.process_chat_body.
  apply emits_try; [|intros; apply emits_ret].
  apply emits_bind; [by apply emits_get_notebook_by_id|]. intros [notebook|].
  - by apply emits_with_notebook.
  - apply emits_raise.
Qed.

End Emits.

Lemma other_calls_scoped : other_calls scoped_search.
Proof. repeat split; intros; intros q k ids' [=]. Qed.

Lemma other_calls_any : other_calls (λ _, True).
Proof. by repeat split. Qed.

(** ** The vector search and the empty candidate set *)

(** C2, as it is stated, does not hold: the search operation has no test for
    an empty candidate list, so the stored procedure is invoked. *)
Lemma empty_candidates_still_searched :
  ¬ (∀ env q k w,
       (SupabaseService.search_chunks_vector env q [] k w).1 = Ok []
       ∧ calls (SupabaseService.search_chunks_vector env q [] k w).2 = calls w).
Proof.
  intros H. destruct (H Demo.env [] 5%Z Demo.world0) as [_ Hcalls].
  rewrite search_chunks_vector_run in Hcalls. discriminate Hcalls.
Qed.

(** C2, amended.  The search operation always sends one request to the
    store, with the candidate list it was given, also when that list is
    empty; it returns the rows of the store, and no rows when the request
    raises.  The short cut for an empty candidate set is taken by the chat
    turn: it answers with the fixed message before any embedding or search is
    made, so that no turn sends a vector search over an empty candidate
    list. *)
Theorem empty_candidates_short_cut_in_turn (env : Env) :
  (∀ q ids k w,
     SupabaseService.search_chunks_vector env q ids k w
     = (Ok (if db_fails env (MatchDocuments q k ids) then []
            else match_documents env q k ids),
        logged w [DbCall (MatchDocuments q k ids)]))
  ∧ (∀ chat_request notebook w w',
       ChatService.candidate_book_ids env notebook w = (Ok [], w') →
       ChatService.with_notebook env chat_request notebook w
       = (Ok (ChatResponse.mk ChatService.no_documents_text []
                (Notebook.memory_summary notebook) (Notebook.key_facts notebook)),
          w'))
  ∧ (∀ chat_request, emits scoped_search (ChatService.process_chat env chat_request)).
Proof.
  split; [|split].
  - intros q ids k w. apply search_chunks_vector_run.
  - intros chat_request notebook w w' Hids. unfold ChatService.with_notebook.
    by rewrite (bind_ok _ _ _ _ _ Hids).
  - intros chat_request. apply emits_process_chat; [apply other_calls_scoped|].
    intros q k i ids q' k' ids' [= _ _ <-]. done.
Qed.

(** ** A notebook without documents *)

Lemma get_notebook_found env nid uid w notebook w1 :
  SupabaseService.get_notebook_by_id env nid uid w = (Ok (Some notebook), w1) →
  notebooks w !! nid = Some notebook
  ∧ w1 = logged w [DbCall (GetNotebook nid uid)].
Proof.
  rewrite get_notebook_by_id_run. intros [= Hnb <-]. split; [|done].
  destruct (db_fails env _); [done|].
  destruct (notebooks w !! nid) as [nb|]; [|done].
  by destruct (SupabaseService.user_filter uid nb).
Qed.

(** C9.  A turn on a notebook whose selected books and selected genres are
    both empty returns the fixed no-documents message with no citations and
    with the stored memory summary and key facts of the notebook.  Nothing is
    written: the tables are unchanged and the only request to the store is the
    lookup of the notebook. *)
Theorem empty_scope_turn (env : Env) (chat_request : ChatRequest.t)
    (w w1 : World) (notebook : Notebook.t) :
  SupabaseService.get_notebook_by_id env (ChatRequest.notebook_id chat_request)
    (Some (ChatRequest.user_id chat_request)) w = (Ok (Some notebook), w1) →
  Notebook.selected_books notebook = [] →
  Notebook.selected_genres notebook = [] →
  ChatService.process_chat env chat_request w
  = (Ok (ChatResponse.mk
           "I don't have access to any documents in this notebook. Please select some books or genres first."
           [] (Notebook.memory_summary notebook) (Notebook.key_facts notebook)),
     w1)
  ∧ notebooks w !! ChatRequest.notebook_id chat_request = Some notebook
  ∧ books w1 = books w
  ∧ notebooks w1 = notebooks w
  ∧ chat_messages w1 = chat_messages w
  ∧ calls w1
    = calls w ++ [DbCall (GetNotebook (ChatRequest.notebook_id chat_request)
                            (Some (ChatRequest.user_id chat_request)))].
Proof.
  intros Hnb Hbooks Hgenres.
  destruct (get_notebook_found _ _ _ _ _ _ Hnb) as [Hstored ->].
  split; [|by repeat split].
  unfold ChatService.process_chat, ChatService.process_chat_body.
  rewrite (try_bind_ok _ _ _ _ _ _ Hnb).
  unfold ChatService.with_notebook, ChatService.candidate_book_ids.
  by rewrite Hbooks, Hgenres.
Qed.

Lemma empty_scope_turn_witness :
  ChatService.process_chat Demo.env (Demo.request "n2") Demo.world0
  = (Ok (ChatResponse.mk ChatService.no_documents_text [] "earlier summary" ["- a fact"]),
     logged Demo.world0 [DbCall (GetNotebook "n2" (Some "u1"))]).
Proof.
  refine (proj1 (empty_scope_turn Demo.env (Demo.request "n2") Demo.world0
                   (logged Demo.world0 [DbCall (GetNotebook "n2" (Some "u1"))])
                   (Notebook.mk "u1" "empty" [] [] "earlier summary" ["- a fact"] Demo.t0)
                   _ _ _)).
  - vm_compute. reflexivity.
  - reflexivity.
  - reflexivity.
Defined.

(** ** Failure of the embedding model *)



(** ** The candidate book ids of a turn *)

Section Candidates.
Variable env : Env.

Lemma extend_by_genres_run genres ids w :
  ChatService.extend_by_genres env genres ids w
  = (Ok (ids ++ flat_map
                  (λ genre, map Book.id
                     (if db_fails env (BooksByGenre genre) then []
                      else filter (λ b, Book.genre b = genre) (books w)))
                  genres),
     logged w (map (λ genre, DbCall (BooksByGenre genre)) genres)).
Proof.
  revert ids w. induction genres as [|genre genres IH]; intros ids w.
  - simpl. by rewrite app_nil_r, logged_nil.
  - simpl. rewrite (bind_ok _ _ _ _ _ (get_books_by_genre_run env genre w)), IH.
    rewrite logged_logged. simpl. by rewrite <- app_assoc.
Qed.

Lemma elem_of_genre_ids genres w x :
  x ∈ flat_map
        (λ genre, map Book.id
           (if db_fails env (BooksByGenre genre) then []
            else filter (λ b, Book.genre b = genre) (books w)))
        genres
  ↔ ∃ b, b ∈ books w ∧ Book.id b = x ∧ Book.genre b ∈ genres
         ∧ db_fails env (BooksByGenre (Book.genre b)) = false.
Proof.
  rewrite list_elem_of_In, in_flat_map. split.
  - intros (genre & Hg & Hx). destruct (db_fails env (BooksByGenre genre)) eqn:Hup;
      [done|].
    apply in_map_iff in Hx as (b & Hid & Hb).
    apply list_elem_of_In, list_elem_of_filter in Hb as [<- Hb].
    exists b. split; [done|]. split; [done|]. split; [by apply list_elem_of_In | done].
  - intros (b & Hb & Hid & Hg & Hup). exists (Book.genre b).
    split; [by apply list_elem_of_In|]. rewrite Hup. apply in_map_iff.
    exists b. split; [done|]. apply list_elem_of_In, list_elem_of_filter. done.
Qed.

Lemma candidate_book_ids_selected notebook w :
  Notebook.selected_books notebook ≠ [] →
  ChatService.candidate_book_ids env notebook w
  = (Ok (Notebook.selected_books notebook), w).
Proof.
  intros H. unfold ChatService.candidate_book_ids.
  by destruct (Notebook.selected_books notebook).
Qed.

Lemma candidate_book_ids_genres notebook w :
  Notebook.selected_books notebook = [] →
  ∃ ids, ChatService.candidate_book_ids env notebook w
         = (Ok ids,
            logged w (map (λ genre, DbCall (BooksByGenre genre))
                        (Notebook.selected_genres notebook)))
    ∧ NoDup ids
    ∧ ∀ x, x ∈ ids
           ↔ ∃ b, b ∈ books w ∧ Book.id b = x
                  ∧ Book.genre b ∈ Notebook.selected_genres notebook
                  ∧ db_fails env (BooksByGenre (Book.genre b)) = false.
Proof.
  intros H. unfold ChatService.candidate_book_ids. rewrite H.
  destruct (Notebook.selected_genres notebook) as [|g gs] eqn:Hg.
  - exists []. rewrite logged_nil. split; [done|]. split; [constructor|].
    intros x. split; [by intros ?%elem_of_nil|].
    by intros (b & _ & _ & ?%elem_of_nil & _).
  - eexists. rewrite (bind_ok _ _ _ _ _ (extend_by_genres_run (g :: gs) [] w)).
    split; [done|]. unfold Py.list_set. split; [apply NoDup_remove_dups|].
    intros x. rewrite elem_of_remove_dups, app_nil_l. apply elem_of_genre_ids.
Qed.

End Candidates.

(** C1, as it is stated, does not hold: a notebook with a selected book and a
    selected genre searches the selected book only. *)
Lemma selected_books_hide_genres :
  DbCall (MatchDocuments [QArith_base.Qmake 1 2] 5 ["b1"])
    ∈ calls (ChatService.process_chat Demo.env (Demo.request "n1") Demo.world0).2
  ∧ Demo.shelf !! "n1" = Some (Notebook.mk "u1" "mixed" ["b1"] ["science"] "" [] Demo.t0)
  ∧ "b2" ∈ effective_scope (Notebook.mk "u1" "mixed" ["b1"] ["science"] "" [] Demo.t0)
             Demo.library
  ∧ (list_to_set ["b1"] : gset string)
    ≠ effective_scope (Notebook.mk "u1" "mixed" ["b1"] ["science"] "" [] Demo.t0)
        Demo.library.
Proof.
  assert (Hb2 : "b2" ∈ effective_scope
                  (Notebook.mk "u1" "mixed" ["b1"] ["science"] "" [] Demo.t0) Demo.library).
  { unfold effective_scope. apply elem_of_union_r, elem_of_list_to_set.
    vm_compute. apply list_elem_of_here. }
  split; [|split; [|split]].
  - vm_compute. do 2 apply list_elem_of_further. apply list_elem_of_here.
  - vm_compute. reflexivity.
  - exact Hb2.
  - intros Heq. rewrite <- Heq in Hb2.
    apply elem_of_list_to_set, list_elem_of_singleton in Hb2. discriminate Hb2.
Qed.

Lemma effective_scope_elem notebook all_books x :
  x ∈ effective_scope notebook all_books
  ↔ x ∈ Notebook.selected_books notebook
    ∨ ∃ b, b ∈ all_books ∧ Book.id b = x
           ∧ Book.genre b ∈ Notebook.selected_genres notebook.
Proof.
  unfold effective_scope. rewrite elem_of_union, !elem_of_list_to_set.
  rewrite map_fmap, list_elem_of_fmap. split.
  - intros [H|(b & -> & [Hg Hb]%list_elem_of_filter)]; [by left|].
    right. by exists b.
  - intros [H|(b & Hb & <- & Hg)]; [by left|].
    right. exists b. split; [done|]. by apply list_elem_of_filter.
Qed.

Lemma retrieve_and_answer_calls env chat_request notebook book_ids w :
  ∃ q rest,
    calls (ChatService.retrieve_and_answer env chat_request notebook book_ids w).2
    = calls w ++ EmbedCall [ChatRequest.message chat_request]
                 :: DbCall (MatchDocuments q 5 book_ids) :: rest.
Proof.
  unfold ChatService.retrieve_and_answer.
  rewrite (bind_ok _ _ _ _ _ (generate_query_embedding_run env _ w)).
  rewrite (bind_ok _ _ _ _ _ (search_chunks_vector_run env _ book_ids 5 _)).
  eexists. rewrite logged_logged.
  match goal with |- context [bind ?m ?k ?w0] =>
    assert (Hrest : emits (λ _, True) (bind m k)) end.
  { apply emits_bind; [by apply emits_add_book_titles|]. intros [|c cs].
    - apply emits_ret.
    - apply emits_answer_turn, other_calls_any. }
  match goal with |- context [bind ?m ?k ?w0] =>
    destruct (Hrest w0) as (rest & Hcalls & _) end.
  exists rest. rewrite Hcalls. simpl. by rewrite <- app_assoc.
Qed.

(** C1, amended.  The candidate book ids of a turn are the selected books
    when there are any: books of the selected genres are then not added.
    When no book is selected, they are, without duplicates, the ids of the
    books of the selected genres whose lookup in the store did not raise.  So
    the candidate set is the effective document scope when no book is
    selected or no genre is selected (and the genre lookups succeed).  These
    are the ids handed to the vector search of the turn. *)
Theorem candidate_book_ids_by_design (env : Env) (chat_request : ChatRequest.t)
    (notebook : Notebook.t) (w : World) :
  ∃ book_ids w',
    ChatService.candidate_book_ids env notebook w = (Ok book_ids, w')
    ∧ (Notebook.selected_books notebook ≠ [] →
       book_ids = Notebook.selected_books notebook ∧ w' = w)
    ∧ (Notebook.selected_books notebook = [] →
       NoDup book_ids
       ∧ ∀ x, x ∈ book_ids
              ↔ ∃ b, b ∈ books w ∧ Book.id b = x
                     ∧ Book.genre b ∈ Notebook.selected_genres notebook
                     ∧ db_fails env (BooksByGenre (Book.genre b)) = false)
    ∧ (Notebook.selected_books notebook = [] ∨ Notebook.selected_genres notebook = [] →
       (∀ genre, db_fails env (BooksByGenre genre) = false) →
       list_to_set book_ids = effective_scope notebook (books w))
    ∧ (book_ids ≠ [] →
       ∃ q rest,
         calls (ChatService.with_notebook env chat_request notebook w).2
         = calls w' ++ EmbedCall [ChatRequest.message chat_request]
                      :: DbCall (MatchDocuments q 5 book_ids) :: rest).
Proof.
  assert (Hsearch : ∀ book_ids w',
            ChatService.candidate_book_ids env notebook w = (Ok book_ids, w') →
            book_ids ≠ [] →
            ∃ q rest,
              calls (ChatService.with_notebook env chat_request notebook w).2
              = calls w' ++ EmbedCall [ChatRequest.message chat_request]
                           :: DbCall (MatchDocuments q 5 book_ids) :: rest).
  { intros book_ids w' Hrun Hne. unfold ChatService.with_notebook.
    rewrite (bind_ok _ _ _ _ _ Hrun). destruct book_ids as [|i ids]; [done|].
    apply retrieve_and_answer_calls. }
  destruct (decide (Notebook.selected_books notebook = [])) as [Hnil|Hsel].
  - destruct (candidate_book_ids_genres env notebook w Hnil) as (ids & Hrun & Hnd & Hin).
    exists ids. eexists. split; [exact Hrun|].
    split; [done|]. split; [done|]. split; [|by apply Hsearch].
    intros _ Hup. apply set_eq. intros x.
    rewrite elem_of_list_to_set, Hin, effective_scope_elem, Hnil. split.
    + intros (b & Hb & Hid & Hg & _). right. by exists b.
    + intros [?%elem_of_nil|(b & Hb & Hid & Hg)]; [done|]. exists b. by rewrite Hup.
  - exists (Notebook.selected_books notebook), w.
    pose proof (candidate_book_ids_selected env notebook w Hsel) as Hrun.
    split; [exact Hrun|]. split; [done|]. split; [done|].
    split; [|by apply Hsearch].
    intros [Hnil|Hg] _; [done|]. apply set_eq. intros x.
    rewrite elem_of_list_to_set, effective_scope_elem, Hg. split; [by left|].
    intros [H|(b & _ & _ & ?%elem_of_nil)]; done.
Qed.

(** ** The turn after retrieval *)

Section Turn.
Variable env : Env.

Lemma update_notebook_memory_step_run notebook question answer w :
  ChatService._update_notebook_memory env notebook question answer w
  = (Ok (match llm_invoke env
                 (RAGService.memory_messages (Notebook.memory_summary notebook)
                    (Conversation.mk question answer)) with
         | Ok summary => summary
         | Raise _ => Notebook.memory_summary notebook
         end),
     logged w [LlmCall (RAGService.memory_messages (Notebook.memory_summary notebook)
                          (Conversation.mk question answer))]).
Proof.
  unfold ChatService._update_notebook_memory.
  apply try_ok. by rewrite (bind_ok _ _ _ _ _ (update_memory_summary_run env _ _ w)).
Qed.

Lemma candidate_book_ids_logged notebook w :
  ∃ cs, (ChatService.candidate_book_ids env notebook w).2 = logged w cs.
Proof.
  destruct (decide (Notebook.selected_books notebook = [])) as [Hnil|Hsel].
  - destruct (candidate_book_ids_genres env notebook w Hnil) as (ids & -> & _).
    by eexists.
  - rewrite (candidate_book_ids_selected env notebook w Hsel).
    exists []. by rewrite logged_nil.
Qed.

Lemma add_book_titles_logged chunks w :
  ∃ cs, (ChatService.add_book_titles env chunks w).2 = logged w cs.
Proof.
  unfold ChatService.add_book_titles. destruct chunks as [|c cs].
  - exists []. by rewrite logged_nil.
  - rewrite (bind_ok _ _ _ _ _ (get_books_by_ids_run env _ w)).
    destruct (Py.list_set _); simpl; [exists []; by rewrite logged_nil | by eexists].
Qed.

Lemma finds_tables chat_request w notebook chunks w' :
  finds env chat_request w notebook chunks w' →
  notebooks w !! ChatRequest.notebook_id chat_request = Some notebook
  ∧ books w' = books w
  ∧ notebooks w' = notebooks w
  ∧ chat_messages w' = chat_messages w.
Proof.
  intros (w1 & ids & w2 & q & w3 & found & w4 & Hnb & Hids & _ & Hq & Hs & Ht & _).
  destruct (get_notebook_found _ _ _ _ _ _ Hnb) as [Hstored ->].
  split; [done|].
  destruct (candidate_book_ids_logged notebook
              (logged w [DbCall (GetNotebook (ChatRequest.notebook_id chat_request)
                                   (Some (ChatRequest.user_id chat_request)))]))
    as [cs Hcs].
  rewrite Hids in Hcs. simpl in Hcs. subst w2.
  rewrite generate_query_embedding_run in Hq. injection Hq as _ <-.
  rewrite search_chunks_vector_run in Hs. injection Hs as _ <-.
  match type of Ht with ChatService.add_book_titles _ _ ?w0 = _ =>
    destruct (add_book_titles_logged found w0) as [cs' Hcs'] end.
  rewrite Ht in Hcs'. simpl in Hcs'. subst w'. done.
Qed.

Lemma process_chat_finds chat_request w notebook chunks w' :
  finds env chat_request w notebook chunks w' →
  ChatService.process_chat env chat_request w
  = try_except (ChatService.answer_turn env chat_request notebook chunks)
      (λ _, ret (ChatResponse.mk ChatService.error_text [] "" [])) w'.
Proof.
  intros (w1 & ids & w2 & q & w3 & found & w4 & Hnb & Hids & Hne & Hq & Hs & Ht & Hc).
  unfold ChatService.process_chat, ChatService.process_chat_body.
  rewrite (try_bind_ok _ _ _ _ _ _ Hnb). unfold ChatService.with_notebook.
  rewrite (try_bind_ok _ _ _ _ _ _ Hids). destruct ids as [|i ids]; [done|].
  unfold ChatService.retrieve_and_answer.
  rewrite (try_bind_ok _ _ _ _ _ _ Hq), (try_bind_ok _ _ _ _ _ _ Hs).
  rewrite (try_bind_ok _ _ _ _ _ _ Ht). by destruct chunks.
Qed.

(** The turn from the answer on, given the history read and the answer
    generated. *)
Lemma answer_turn_run chat_request notebook chunks w hist w6 rag w7 :
  SupabaseService.get_chat_history env (ChatRequest.notebook_id chat_request) 10 w
  = (Ok hist, w6) →
  RAGService.generate_response env (ChatRequest.message chat_request)
    (RAGService.create_context_from_chunks chunks)
    (ChatService._format_chat_history hist) w6 = (Ok rag, w7) →
  ∃ memory_calls key_facts,
    let nid := ChatRequest.notebook_id chat_request in
    let answer := RagResponse.response rag in
    let citations := ChatService._extract_citations chunks in
    let memory :=
      match llm_invoke env
              (RAGService.memory_messages (Notebook.memory_summary notebook)
                 (Conversation.mk (ChatRequest.message chat_request) answer)) with
      | Ok summary => summary
      | Raise _ => Notebook.memory_summary notebook
      end in
    let row := ChatMessage.mk nid (ChatRequest.message chat_request) answer citations in
    try_except (ChatService.answer_turn env chat_request notebook chunks)
      (λ _, ret (ChatResponse.mk ChatService.error_text [] "" [])) w
    = if db_fails env (SaveChatMessage row)
      then (Ok (ChatResponse.mk ChatService.error_text [] "" []),
            logged w7 (memory_calls ++ [DbCall (SaveChatMessage row)]))
      else (Ok (ChatResponse.mk answer citations memory key_facts),
            mkWorld (books w7)
              (if db_fails env (UpdateNotebookMemory nid memory key_facts)
               then notebooks w7
               else alter
                      (SupabaseService.set_memory memory key_facts
                         (utcnow env
                            (calls w7 ++ memory_calls ++ [DbCall (SaveChatMessage row)])))
                      nid (notebooks w7))
              (chat_messages w7 ++ [row])
              (calls w7 ++ memory_calls
                 ++ [DbCall (SaveChatMessage row);
                     DbCall (UpdateNotebookMemory nid memory key_facts)])).
Proof.
  intros Hh Hg. unfold ChatService.answer_turn.
  rewrite (try_bind_ok _ _ _ _ _ _ Hh), (try_bind_ok _ _ _ _ _ _ Hg).
  rewrite (try_bind_ok _ _ _ _ _ _ (update_notebook_memory_step_run _ _ _ _)).
  rewrite (try_bind_ok _ _ _ _ _ _ (extract_key_facts_run env _ _)).
  rewrite logged_logged.
  exists [LlmCall (RAGService.memory_messages (Notebook.memory_summary notebook)
                     (Conversation.mk (ChatRequest.message chat_request)
                        (RagResponse.response rag)));
          LlmCall (RAGService.facts_messages
                     (Conversation.mk (ChatRequest.message chat_request)
                        (RagResponse.response rag)))],
    (match llm_invoke env
             (RAGService.facts_messages
                (Conversation.mk (ChatRequest.message chat_request)
                   (RagResponse.response rag))) with
     | Ok content => RAGService.parse_facts content
     | Raise _ => []
     end).
  cbn zeta. unfold try_except, bind. rewrite save_chat_message_run.
  destruct (db_fails env (SaveChatMessage _)).
  - simpl. by rewrite logged_logged.
  - rewrite update_notebook_memory_run.
    destruct (db_fails env (UpdateNotebookMemory _ _ _)); unfold logged; simpl;
      by rewrite <- !app_assoc.
Qed.

End Turn.

(** ** The conversation history sent to the LLM *)

Lemma format_chat_history_from chat_history acc :
  fold_left
    (λ formatted_history msg,
       (formatted_history
          ++ [HistoryEntry.mk "user" (ChatMessage.user_message msg)])
          ++ [HistoryEntry.mk "assistant" (ChatMessage.assistant_response msg)])
    chat_history acc
  = acc ++ flat_map
             (λ turn, [HistoryEntry.mk "user" (ChatMessage.user_message turn);
                       HistoryEntry.mk "assistant" (ChatMessage.assistant_response turn)])
             chat_history.
Proof.
  revert acc. induction chat_history as [|msg rest IH]; intros acc; simpl.
  - by rewrite app_nil_r.
  - rewrite IH, <- !app_assoc. done.
Qed.

Lemma format_chat_history_pairs chat_history :
  ChatService._format_chat_history chat_history
  = flat_map
      (λ turn, [HistoryEntry.mk "user" (ChatMessage.user_message turn);
                HistoryEntry.mk "assistant" (ChatMessage.assistant_response turn)])
      chat_history.
Proof. unfold ChatService._format_chat_history. by rewrite format_chat_history_from. Qed.

Lemma format_chat_history_length chat_history :
  length (ChatService._format_chat_history chat_history) = 2 * length chat_history.
Proof.
  rewrite format_chat_history_pairs.
  induction chat_history as [|msg rest IH]; simpl; [done | lia].
Qed.

Lemma lastn_length {A} n (l : list A) : length (Py.lastn n l) = n `min` length l.
Proof. unfold Py.lastn. rewrite length_drop. lia. Qed.

Lemma lastn_all {A} n (l : list A) : length l ≤ n → Py.lastn n l = l.
Proof.
  intros H. unfold Py.lastn. replace (length l - n) with 0 by lia. done.
Qed.

Lemma build_messages_window query context history :
  RAGService.build_messages query context history
  = SystemMessage RAGService.system_prompt
      :: map RAGService.history_message (Py.lastn 5 history)
      ++ [HumanMessage (RAGService.query_with_context query context)].
Proof.
  unfold RAGService.build_messages. destruct history as [|entry history]; [done|].
  by rewrite for_append_from.
Qed.

Lemma process_chat_generation_call env chat_request w notebook chunks w5 hist w6 :
  finds env chat_request w notebook chunks w5 →
  SupabaseService.get_chat_history env (ChatRequest.notebook_id chat_request) 10 w5
  = (Ok hist, w6) →
  ∃ rest,
    calls (ChatService.process_chat env chat_request w).2
    = calls w6
      ++ LlmCall (RAGService.build_messages (ChatRequest.message chat_request)
                    (RAGService.create_context_from_chunks chunks)
                    (ChatService._format_chat_history hist)) :: rest.
Proof.
  intros Hfinds Hh. rewrite (process_chat_finds _ _ _ _ _ _ Hfinds).
  destruct (answer_turn_run env chat_request notebook chunks w5 hist w6 _ _ Hh
              (generate_response_run env _ _ _ w6)) as (mc & kf & Hrun).
  cbn zeta in Hrun. rewrite Hrun.
  destruct (db_fails env (SaveChatMessage _)); simpl;
    rewrite <- app_assoc; simpl; by eexists.
Qed.

(** C3, as it is stated, does not hold: with three earlier turns the LLM
    receives five history messages, which start with the reply of the first
    turn, and not three pairs. *)
Lemma three_turns_sent_as_five_messages :
  (SupabaseService.get_chat_history Demo.env "n3" 10 Demo.world3).1
  = Ok [Demo.turn 1; Demo.turn 2; Demo.turn 3]
  ∧ ∃ query,
      calls (ChatService.process_chat Demo.env (Demo.request "n3") Demo.world3).2 !! 7
      = Some (LlmCall [SystemMessage RAGService.system_prompt;
                       SystemMessage "a1"; HumanMessage "q2";
                       SystemMessage "a2"; HumanMessage "q3";
                       SystemMessage "a3"; query])
      ∧ ¬ last_turns_window [Demo.turn 1; Demo.turn 2; Demo.turn 3]
            [SystemMessage RAGService.system_prompt;
             SystemMessage "a1"; HumanMessage "q2";
             SystemMessage "a2"; HumanMessage "q3";
             SystemMessage "a3"; query].
Proof.
  split; [by vm_compute|]. eexists. split; [by vm_compute|].
  intros (middle & query & Hmessages & Hmiddle).
  injection Hmessages as Hmessages.
  match type of Hmessages with
  | ?a :: ?b :: ?c :: ?d :: ?e :: ?q = _ =>
      change (a :: b :: c :: d :: e :: q) with ([a; b; c; d; e] ++ q) in Hmessages
  end.
  apply app_inj_tail in Hmessages as [<- _].
  vm_compute in Hmiddle. discriminate Hmiddle.
Qed.

Lemma history_message_content entries :
  map message_content (map RAGService.history_message entries)
  = map HistoryEntry.content entries.
Proof.
  induction entries as [|entry entries IH]; simpl; [done|]. rewrite IH. f_equal.
  unfold RAGService.history_message. by destruct (decide _).
Qed.

Lemma history_message_user entries :
  Forall2 (λ entry m, HistoryEntry.role entry = "user" →
                      m = HumanMessage (HistoryEntry.content entry))
    entries (map RAGService.history_message entries).
Proof.
  induction entries as [|entry entries IH]; simpl; constructor; [|exact IH].
  intros Hrole. unfold RAGService.history_message. by destruct (decide _).
Qed.

(** Running the retrieval of a turn on a concrete store. *)
Ltac run_finds :=
  unfold finds; eexists _, _, _, _, _, _, _;
  split; [vm_compute; reflexivity|]; split; [vm_compute; reflexivity|];
  split; [discriminate|]; split; [vm_compute; reflexivity|];
  split; [vm_compute; reflexivity|]; split; [vm_compute; reflexivity|];
  discriminate.

(** C3, amended.  In a turn that reaches answer generation, the messages
    sent to the LLM are the system instruction, then the last five messages
    of the formatted history (all of them when there are fewer), then the
    current query with its context.  The formatted history has, for each
    turn read from the store, the user message followed by the assistant
    response; so the window holds whole turns only for a history of at most
    two turns, and for a longer one it starts with the response of the third
    turn from the end.  Every entry is sent with its content, a user entry as
    a human message. *)
Theorem history_window_last_five_messages (env : Env) (chat_request : ChatRequest.t)
    (w : World) (notebook : Notebook.t) (chunks : list Chunk.t) (w5 : World)
    (hist : list ChatMessage.t) (w6 : World) :
  finds env chat_request w notebook chunks w5 →
  SupabaseService.get_chat_history env (ChatRequest.notebook_id chat_request) 10 w5
  = (Ok hist, w6) →
  ∃ middle rest,
    calls (ChatService.process_chat env chat_request w).2
    = calls w6
      ++ LlmCall
           (SystemMessage RAGService.system_prompt
              :: middle
              ++ [HumanMessage
                    (RAGService.query_with_context (ChatRequest.message chat_request)
                       (RAGService.create_context_from_chunks chunks))])
         :: rest
    ∧ map message_content middle
      = map HistoryEntry.content
          (Py.lastn 5
             (flat_map
                (λ turn, [HistoryEntry.mk "user" (ChatMessage.user_message turn);
                          HistoryEntry.mk "assistant"
                            (ChatMessage.assistant_response turn)])
                hist))
    ∧ Forall2
        (λ entry m, HistoryEntry.role entry = "user" →
                    m = HumanMessage (HistoryEntry.content entry))
        (Py.lastn 5
           (flat_map
              (λ turn, [HistoryEntry.mk "user" (ChatMessage.user_message turn);
                        HistoryEntry.mk "assistant"
                          (ChatMessage.assistant_response turn)])
              hist))
        middle
    ∧ length middle = 5 `min` (2 * length hist)
    ∧ (length hist ≤ 2 →
       map message_content middle
       = flat_map (λ turn, [ChatMessage.user_message turn;
                            ChatMessage.assistant_response turn]) hist).
Proof.
  intros Hfinds Hh.
  destruct (process_chat_generation_call _ _ _ _ _ _ _ _ Hfinds Hh) as [rest Hcalls].
  rewrite build_messages_window in Hcalls.
  exists (map RAGService.history_message
            (Py.lastn 5 (ChatService._format_chat_history hist))), rest.
  split; [exact Hcalls|]. rewrite <- format_chat_history_pairs.
  split; [apply history_message_content|]. split; [apply history_message_user|].
  split.
  - by rewrite length_map, lastn_length, format_chat_history_length.
  - intros Hshort. rewrite history_message_content, lastn_all.
    + rewrite format_chat_history_pairs. clear.
      induction hist as [|turn hist IH]; simpl; [done | by rewrite IH].
    + rewrite format_chat_history_length. lia.
Qed.

Lemma history_window_last_five_messages_witness :
  ∃ chunks w5 hist w6 middle,
    finds Demo.env (Demo.request "n3") Demo.world3
      (Notebook.mk "u1" "genres" [] ["history"; "science"] "earlier summary" [] Demo.t0)
      chunks w5
    ∧ SupabaseService.get_chat_history Demo.env "n3" 10 w5 = (Ok hist, w6)
    ∧ length hist = 3
    ∧ length middle = 5
    ∧ map message_content middle = ["a1"; "q2"; "a2"; "q3"; "a3"].
Proof.
  eexists _, _, _, _.
  assert (Hfinds : finds Demo.env (Demo.request "n3") Demo.world3
            (Notebook.mk "u1" "genres" [] ["history"; "science"] "earlier summary" [] Demo.t0)
            _ _) by run_finds.
  match type of Hfinds with
  | finds _ _ _ _ _ ?w5 =>
      eassert (Hh : SupabaseService.get_chat_history Demo.env
                      (ChatRequest.notebook_id (Demo.request "n3")) 10 w5 = (Ok _, _))
        by (vm_compute; reflexivity)
  end.
  destruct (history_window_last_five_messages _ _ _ _ _ _ _ _ Hfinds Hh)
    as (middle & rest & _ & Hcontent & _ & Hlen & _).
  exists middle. split; [exact Hfinds|]. split; [exact Hh|].
  split; [reflexivity|]. split; [exact Hlen | exact Hcontent].
Defined.

(** ** Failure of answer generation *)

(** C4, as it is stated, does not hold: when the LLM fails on answer
    generation, the turn answers with the apology and still cites the three
    chunks that were found. *)
Lemma failed_generation_still_cites :
  ∃ resp messages,
    (ChatService.process_chat (Demo.env_with Demo.llm_no_answer Demo.embed_ok)
       (Demo.request "n3") Demo.world3).1 = Ok resp
    ∧ calls (ChatService.process_chat (Demo.env_with Demo.llm_no_answer Demo.embed_ok)
               (Demo.request "n3") Demo.world3).2 !! 7 = Some (LlmCall messages)
    ∧ head messages = Some (SystemMessage RAGService.system_prompt)
    ∧ Demo.llm_no_answer messages = Raise (ExternalError "llm")
    ∧ ChatResponse.response resp
      = "I apologize, but I encountered an error while processing your request. Please try again."
    ∧ length (ChatResponse.citations resp) = 3
    ∧ ChatResponse.citations resp ≠ [].
Proof.
  eexists _, _. split; [vm_compute; reflexivity|]. split; [vm_compute; reflexivity|].
  split; [reflexivity|]. split; [reflexivity|]. split; [reflexivity|].
  split; [reflexivity | discriminate].
Qed.

(** C4, amended.  When the LLM fails on answer generation, the answer
    generator returns the fixed apology with an empty context and a chunk
    count of zero, and raises nothing.  The turn goes on with this text as its
    answer: it returns normally, its response is the apology, and it carries
    the citations extracted from the chunks found, one for each chunk.  Only
    when saving the chat message raises are the citations of the response
    empty. *)
Theorem generation_failure_keeps_citations (env : Env) (chat_request : ChatRequest.t)
    (w : World) (notebook : Notebook.t) (chunks : list Chunk.t) (w5 : World)
    (hist : list ChatMessage.t) (w6 : World) (e : exn) :
  finds env chat_request w notebook chunks w5 →
  SupabaseService.get_chat_history env (ChatRequest.notebook_id chat_request) 10 w5
  = (Ok hist, w6) →
  llm_invoke env
    (RAGService.build_messages (ChatRequest.message chat_request)
       (RAGService.create_context_from_chunks chunks)
       (ChatService._format_chat_history hist)) = Raise e →
  (RAGService.generate_response env (ChatRequest.message chat_request)
     (RAGService.create_context_from_chunks chunks)
     (ChatService._format_chat_history hist) w6).1
  = Ok (RagResponse.mk
          "I apologize, but I encountered an error while processing your request. Please try again."
          "" 0)
  ∧ ∃ resp w',
      ChatService.process_chat env chat_request w = (Ok resp, w')
      ∧ ChatResponse.response resp
        = "I apologize, but I encountered an error while processing your request. Please try again."
      ∧ ChatResponse.citations resp
        = (if db_fails env
                (SaveChatMessage
                   (ChatMessage.mk (ChatRequest.notebook_id chat_request)
                      (ChatRequest.message chat_request)
                      "I apologize, but I encountered an error while processing your request. Please try again."
                      (ChatService._extract_citations chunks)))
           then []
           else ChatService._extract_citations chunks)
      ∧ length (ChatService._extract_citations chunks) = length chunks
      ∧ 0 < length chunks.
Proof.
  intros Hfinds Hh Hllm.
  pose proof (generate_response_run env (ChatRequest.message chat_request)
                (RAGService.create_context_from_chunks chunks)
                (ChatService._format_chat_history hist) w6) as Hg.
  rewrite Hllm in Hg. split; [by rewrite Hg|].
  rewrite (process_chat_finds _ _ _ _ _ _ Hfinds).
  destruct (answer_turn_run env chat_request notebook chunks w5 hist w6 _ _ Hh Hg)
    as (mc & kf & Hrun).
  cbn zeta in Hrun. rewrite Hrun. simpl.
  assert (Hlen : length (ChatService._extract_citations chunks) = length chunks).
  { unfold ChatService._extract_citations. by rewrite for_append_map, length_map. }
  assert (Hpos : 0 < length chunks).
  { destruct Hfinds as (? & ? & ? & ? & ? & ? & ? & _ & _ & _ & _ & _ & _ & Hne).
    destruct chunks; [done | simpl; lia]. }
  change RAGService.error_text with
    "I apologize, but I encountered an error while processing your request. Please try again.".
  destruct (db_fails env (SaveChatMessage _)); eexists _, _; by repeat split.
Qed.

Lemma generation_failure_keeps_citations_witness :
  ∃ chunks w5 hist w6 resp,
    finds (Demo.env_with Demo.llm_no_answer Demo.embed_ok) (Demo.request "n3")
      Demo.world3
      (Notebook.mk "u1" "genres" [] ["history"; "science"] "earlier summary" [] Demo.t0)
      chunks w5
    ∧ SupabaseService.get_chat_history
        (Demo.env_with Demo.llm_no_answer Demo.embed_ok) "n3" 10 w5 = (Ok hist, w6)
    ∧ (ChatService.process_chat (Demo.env_with Demo.llm_no_answer Demo.embed_ok)
         (Demo.request "n3") Demo.world3).1 = Ok resp
    ∧ ChatResponse.citations resp = ChatService._extract_citations chunks
    ∧ length chunks = 3.
Proof.
  eexists _, _, _, _.
  assert (Hfinds : finds (Demo.env_with Demo.llm_no_answer Demo.embed_ok)
            (Demo.request "n3") Demo.world3
            (Notebook.mk "u1" "genres" [] ["history"; "science"] "earlier summary" [] Demo.t0)
            _ _) by run_finds.
  match type of Hfinds with
  | finds _ _ _ _ _ ?w5 =>
      eassert (Hh : SupabaseService.get_chat_history
                      (Demo.env_with Demo.llm_no_answer Demo.embed_ok)
                      (ChatRequest.notebook_id (Demo.request "n3")) 10 w5 = (Ok _, _))
        by (vm_compute; reflexivity)
  end.
  destruct (generation_failure_keeps_citations _ _ _ _ _ _ _ _
              (ExternalError "llm") Hfinds Hh eq_refl)
    as (_ & resp & w' & Hrun & _ & Hcit & _).
  exists resp. split; [exact Hfinds|]. split; [exact Hh|].
  split; [by rewrite Hrun|]. split; [exact Hcit | reflexivity].
Defined.

(** ** The memory summary *)

(** C5, as it is stated, does not hold: the generation of the summary
    succeeds, the response carries the generated summary, and yet the
    notebook keeps its earlier summary, because the store refuses the update
    and the turn does not look at the outcome of the update. *)
Lemma generated_summary_not_stored :
  ∃ resp w',
    ChatService.process_chat (Outage.env_failing Outage.update_down)
      (Demo.request "n3") Demo.world3 = (Ok resp, w')
    ∧ calls w' !! 8
      = Some (LlmCall (RAGService.memory_messages "earlier summary"
                         (Conversation.mk "What happened?" "the answer")))
    ∧ llm_invoke (Outage.env_failing Outage.update_down)
        (RAGService.memory_messages "earlier summary"
           (Conversation.mk "What happened?" "the answer")) = Ok "updated summary"
    ∧ ChatResponse.response resp = "the answer"
    ∧ ChatResponse.memory_summary resp = "updated summary"
    ∧ Notebook.memory_summary <$> notebooks Demo.world3 !! "n3" = Some "earlier summary"
    ∧ Notebook.memory_summary <$> notebooks w' !! "n3" = Some "earlier summary".
Proof.
  eexists _, _. split; [vm_compute; reflexivity|].
  split; [vm_compute; reflexivity|]. split; [reflexivity|].
  split; [reflexivity|]. split; [reflexivity|]. split; vm_compute; reflexivity.
Qed.

(** C5, amended.  In a turn that reaches the memory step: when the
    generation of the summary succeeds, the new memory summary is the
    generated text itself, not the old summary extended.  What becomes of it
    depends on the two writes of the turn.  If saving the chat message
    raises, the turn ends in the generic error response and no notebook is
    written.  Otherwise the response carries the generated summary; the
    notebook then holds it exactly when the store accepts the memory update,
    and when the store refuses the update the notebooks are as they were, the
    response carrying a summary that is not stored.  When the generation
    fails, the new memory summary is the old one, and the memory summary
    stored for every notebook after the turn is the one stored before. *)
Theorem memory_summary_replaced_or_kept (env : Env) (chat_request : ChatRequest.t)
    (w : World) (notebook : Notebook.t) (chunks : list Chunk.t) (w5 : World)
    (hist : list ChatMessage.t) (w6 : World) (rag : RagResponse.t) (w7 : World) :
  finds env chat_request w notebook chunks w5 →
  SupabaseService.get_chat_history env (ChatRequest.notebook_id chat_request) 10 w5
  = (Ok hist, w6) →
  RAGService.generate_response env (ChatRequest.message chat_request)
    (RAGService.create_context_from_chunks chunks)
    (ChatService._format_chat_history hist) w6 = (Ok rag, w7) →
  notebooks w !! ChatRequest.notebook_id chat_request = Some notebook
  ∧ (∀ summary,
       llm_invoke env
         (RAGService.memory_messages (Notebook.memory_summary notebook)
            (Conversation.mk (ChatRequest.message chat_request)
               (RagResponse.response rag))) = Ok summary →
       (ChatService._update_notebook_memory env notebook
          (ChatRequest.message chat_request) (RagResponse.response rag) w7).1
       = Ok summary
       ∧ ∃ resp w',
           ChatService.process_chat env chat_request w = (Ok resp, w')
           ∧ (db_fails env
                (SaveChatMessage
                   (ChatMessage.mk (ChatRequest.notebook_id chat_request)
                      (ChatRequest.message chat_request) (RagResponse.response rag)
                      (ChatService._extract_citations chunks))) = true →
              resp = ChatResponse.mk ChatService.error_text [] "" []
              ∧ notebooks w' = notebooks w)
           ∧ (db_fails env
                (SaveChatMessage
                   (ChatMessage.mk (ChatRequest.notebook_id chat_request)
                      (ChatRequest.message chat_request) (RagResponse.response rag)
                      (ChatService._extract_citations chunks))) = false →
              ChatResponse.memory_summary resp = summary
              ∧ (db_fails env
                   (UpdateNotebookMemory (ChatRequest.notebook_id chat_request)
                      summary (ChatResponse.key_facts resp)) = true →
                 notebooks w' = notebooks w)
              ∧ (db_fails env
                   (UpdateNotebookMemory (ChatRequest.notebook_id chat_request)
                      summary (ChatResponse.key_facts resp)) = false →
                 Notebook.memory_summary
                   <$> notebooks w' !! ChatRequest.notebook_id chat_request
                 = Some summary)))
  ∧ (∀ e,
       llm_invoke env
         (RAGService.memory_messages (Notebook.memory_summary notebook)
            (Conversation.mk (ChatRequest.message chat_request)
               (RagResponse.response rag))) = Raise e →
       (ChatService._update_notebook_memory env notebook
          (ChatRequest.message chat_request) (RagResponse.response rag) w7).1
       = Ok (Notebook.memory_summary notebook)
       ∧ ∀ nid,
           Notebook.memory_summary
             <$> notebooks (ChatService.process_chat env chat_request w).2 !! nid
           = Notebook.memory_summary <$> notebooks w !! nid).
Proof.
  intros Hfinds Hh Hg.
  destruct (finds_tables _ _ _ _ _ _ Hfinds) as (Hstored & _ & Hnbs & _).
  assert (Hnbs7 : notebooks w7 = notebooks w).
  { rewrite get_chat_history_run in Hh. injection Hh as _ <-.
    rewrite generate_response_run in Hg. injection Hg as _ <-. exact Hnbs. }
  rewrite (process_chat_finds _ _ _ _ _ _ Hfinds).
  destruct (answer_turn_run env chat_request notebook chunks w5 hist w6 rag w7 Hh Hg)
    as (mc & kf & Hrun).
  cbn zeta in Hrun. rewrite Hrun. clear Hrun.
  split; [exact Hstored|]. split.
  - intros summary Hllm. rewrite update_notebook_memory_step_run, Hllm.
    split; [done|].
    destruct (db_fails env (SaveChatMessage _)) eqn:Hsave.
    + eexists _, _. split; [reflexivity|]. split; [|done].
      intros _. split; [done|]. simpl. rewrite Hnbs7. done.
    + eexists _, _. split; [reflexivity|]. split; [done|].
      intros _. cbn [ChatResponse.memory_summary ChatResponse.key_facts notebooks].
      split; [done|].
      destruct (db_fails env (UpdateNotebookMemory _ _ _)); split; try done.
      intros _. rewrite lookup_alter_eq, Hnbs7, Hstored. done.
  - intros e Hllm. rewrite update_notebook_memory_step_run, Hllm.
    split; [done|]. intros nid.
    destruct (db_fails env (SaveChatMessage _)); simpl; [by rewrite Hnbs7|].
    destruct (db_fails env (UpdateNotebookMemory _ _ _)); [by rewrite Hnbs7|].
    rewrite Hnbs7.
    destruct (decide (ChatRequest.notebook_id chat_request = nid)) as [<-|Hne].
    + rewrite lookup_alter_eq, Hstored. done.
    + by rewrite lookup_alter_ne.
Qed.

Lemma memory_summary_replaced_or_kept_witness :
  (∃ chunks w5 hist w6 rag w7 resp w',
     finds Demo.env (Demo.request "n3") Demo.world3
       (Notebook.mk "u1" "genres" [] ["history"; "science"] "earlier summary" [] Demo.t0)
       chunks w5
     ∧ SupabaseService.get_chat_history Demo.env "n3" 10 w5 = (Ok hist, w6)
     ∧ RAGService.generate_response Demo.env "What happened?"
         (RAGService.create_context_from_chunks chunks)
         (ChatService._format_chat_history hist) w6 = (Ok rag, w7)
     ∧ ChatService.process_chat Demo.env (Demo.request "n3") Demo.world3 = (Ok resp, w')
     ∧ ChatResponse.memory_summary resp = "updated summary"
     ∧ Notebook.memory_summary <$> notebooks w' !! "n3" = Some "updated summary")
  ∧ (Notebook.memory_summary
       <$> notebooks (ChatService.process_chat
                        (Demo.env_with Demo.llm_no_summary Demo.embed_ok)
                        (Demo.request "n3") Demo.world3).2 !! "n3"
     = Some "earlier summary").
Proof.
  split.
  - eexists _, _, _, _, _, _.
    assert (Hfinds : finds Demo.env (Demo.request "n3") Demo.world3
              (Notebook.mk "u1" "genres" [] ["history"; "science"] "earlier summary" []
                 Demo.t0)
              _ _) by run_finds.
    match type of Hfinds with
    | finds _ _ _ _ ?chunks ?w5 =>
        eassert (Hh : SupabaseService.get_chat_history Demo.env
                        (ChatRequest.notebook_id (Demo.request "n3")) 10 w5 = (Ok _, _))
          by (vm_compute; reflexivity);
        match type of Hh with
        | _ = (Ok ?hist, ?w6) =>
            eassert (Hg : RAGService.generate_response Demo.env
                            (ChatRequest.message (Demo.request "n3"))
                            (RAGService.create_context_from_chunks chunks)
                            (ChatService._format_chat_history hist) w6 = (Ok _, _))
              by (vm_compute; reflexivity)
        end
    end.
    destruct (memory_summary_replaced_or_kept _ _ _ _ _ _ _ _ _ _ Hfinds Hh Hg)
      as (_ & Hok & _).
    destruct (Hok "updated summary" eq_refl) as [_ (resp & w' & Hrun & _ & Hsaved)].
    destruct (Hsaved eq_refl) as (Hresp & _ & Hstore).
    exists resp, w'. split; [exact Hfinds|]. split; [exact Hh|]. split; [exact Hg|].
    split; [exact Hrun|]. split; [exact Hresp | exact (Hstore eq_refl)].
  - assert (Hfinds : finds (Demo.env_with Demo.llm_no_summary Demo.embed_ok)
              (Demo.request "n3") Demo.world3
              (Notebook.mk "u1" "genres" [] ["history"; "science"] "earlier summary" []
                 Demo.t0)
              _ _) by run_finds.
    match type of Hfinds with
    | finds _ _ _ _ ?chunks ?w5 =>
        eassert (Hh : SupabaseService.get_chat_history
                        (Demo.env_with Demo.llm_no_summary Demo.embed_ok)
                        (ChatRequest.notebook_id (Demo.request "n3")) 10 w5 = (Ok _, _))
          by (vm_compute; reflexivity);
        match type of Hh with
        | _ = (Ok ?hist, ?w6) =>
            eassert (Hg : RAGService.generate_response
                            (Demo.env_with Demo.llm_no_summary Demo.embed_ok)
                            (ChatRequest.message (Demo.request "n3"))
                            (RAGService.create_context_from_chunks chunks)
                            (ChatService._format_chat_history hist) w6 = (Ok _, _))
              by (vm_compute; reflexivity)
        end
    end.
    destruct (memory_summary_replaced_or_kept _ _ _ _ _ _ _ _ _ _ Hfinds Hh Hg)
      as (_ & _ & Hkept).
    destruct (Hkept (ExternalError "llm") eq_refl) as [_ Hsame].
    rewrite (Hsame "n3"). reflexivity.
Defined.

(** ** Counting the tags of the context *)

Lemma append_assoc (a b c : string) : (a +:+ b) +:+ c = a +:+ (b +:+ c).
Proof. induction a as [|x a IH]; [done | by rewrite !append_cons, IH]. Qed.

Lemma prefix_cons_inv (c : ascii) (p s : string) :
  String.prefix (String c p) s = true →
  ∃ s', s = String c s' ∧ String.prefix p s' = true.
Proof.
  destruct s as [|d s]; simpl; [done|].
  destruct (ascii_dec c d) as [->|]; [|done]. intros H. by exists s.
Qed.

Lemma prefix_append (p s : string) :
  String.prefix p s = true ↔ ∃ rest, s = p +:+ rest.
Proof.
  revert s. induction p as [|c p IH]; intros s.
  - split; [intros _; exists s; reflexivity | intros _; by destruct s].
  - split.
    + intros (s' & -> & Hp)%prefix_cons_inv. apply IH in Hp as [rest ->].
      by exists rest.
    + intros [rest ->]. simpl. destruct (ascii_dec c c); [|done].
      apply IH. by exists rest.
Qed.

Lemma occurrences_cons (sub : string) (c : ascii) (s : string) :
  occurrences sub (String c s)
  = (if String.prefix sub (String c s) then 1 else 0) + occurrences sub s.
Proof. reflexivity. Qed.

Lemma occurrences_contains (sub s : string) :
  0 < occurrences sub s → contains sub s.
Proof.
  induction s as [|c s IH]; [simpl; lia|]. rewrite occurrences_cons.
  destruct (String.prefix sub (String c s)) eqn:Hp.
  - intros _. apply prefix_append in Hp as [rest Hrest]. by exists "", rest.
  - intros H. destruct IH as (a & b & ->); [lia|]. by exists (String c a), b.
Qed.

Lemma contains_occurrences (sub s : string) :
  sub ≠ "" → contains sub s → 0 < occurrences sub s.
Proof.
  intros Hsub (a & b & ->). induction a as [|c a IH].
  - destruct sub as [|c sub]; [done|]. change ("" +:+ ?x) with x.
    rewrite append_cons, occurrences_cons, <- append_cons.
    rewrite (proj2 (prefix_append _ _)); [lia|]. by exists b.
  - rewrite append_cons, occurrences_cons. lia.
Qed.

Lemma occurrences_none (sub s : string) :
  sub ≠ "" → ¬ contains sub s → occurrences sub s = 0.
Proof.
  intros Hsub Hno. destruct (occurrences sub s) eqn:Hocc; [done|].
  destruct Hno. apply occurrences_contains. lia.
Qed.

Lemma prefix_nil (s : string) : String.prefix "" s = true.
Proof. by destruct s. Qed.

Lemma string_drop_nil (k : nat) : string_drop k "" = "".
Proof. by destruct k. Qed.

(** The pieces of a split are one more than the occurrences of the tag:
    occurrences of ["[From"] cannot overlap. *)
Lemma split_from_tag_length (s : string) (k : nat) (cur : list ascii) :
  length (Py.split_from "[From" k cur s)
  = S (occurrences "[From" (string_drop k s)).
Proof.
  revert k cur. induction s as [|c s IH]; intros k cur.
  - by rewrite string_drop_nil.
  - destruct k as [|k]; cbn [Py.split_from string_drop]; [|apply IH].
    destruct (String.prefix "[From" (String c s)) eqn:Hp.
    + apply prefix_append in Hp as [rest Hrest]. injection Hrest as -> ->.
      cbn [length]. rewrite IH, occurrences_cons.
      rewrite (proj2 (prefix_append "[From" (String "[" ("From" +:+ rest))))
        by (by exists rest).
      reflexivity.
    + rewrite IH, occurrences_cons, Hp. reflexivity.
Qed.

Lemma split_tag_count (s : string) :
  (Z.of_nat (length (Py.split "[From" s)) - 1)%Z = Z.of_nat (occurrences "[From" s).
Proof. unfold Py.split. rewrite split_from_tag_length. simpl string_drop. lia. Qed.

Lemma prefix_tag_tail (c : ascii) (a b : string) :
  (∀ d b', b = String d b' → not_tag_tail d) →
  String.prefix "[From" (String c (a +:+ b)) = String.prefix "[From" (String c a).
Proof.
  intros Hb.
  assert (Hshort : ∀ p, p = "From" ∨ p = "rom" ∨ p = "om" ∨ p = "m" →
                        String.prefix p b = false).
  { intros p Hp. destruct b as [|d b]; [by destruct Hp as [-> | [-> | [-> | ->]]]|].
    destruct (Hb d b eq_refl) as (HF & Hr & Ho & Hm).
    destruct Hp as [-> | [-> | [-> | ->]]]; cbn [String.prefix];
      match goal with |- context [ascii_dec ?x d] => by destruct (ascii_dec x d) end. }
  destruct a as [|x1 [|x2 [|x3 [|x4 a]]]]; rewrite ?append_cons;
    change ("" +:+ b) with b; cbn [String.prefix];
    repeat (destruct (ascii_dec _ _); [|reflexivity]);
    rewrite ?prefix_nil; try reflexivity; apply Hshort; tauto.
Qed.

Lemma occurrences_app_tail (a b : string) :
  (∀ d b', b = String d b' → not_tag_tail d) →
  occurrences "[From" (a +:+ b) = occurrences "[From" a + occurrences "[From" b.
Proof.
  intros Hb. induction a as [|c a IH]; [done|].
  rewrite append_cons, !occurrences_cons, IH, prefix_tag_tail by done. lia.
Qed.

Lemma occurrences_no_bracket (s : string) :
  no_char "[" s → occurrences "[From" s = 0.
Proof.
  induction s as [|c s IH]; [done|]. intros [Hc Hs].
  rewrite occurrences_cons, IH by done. cbn [String.prefix].
  by destruct (ascii_dec "[" c) as [<-|].
Qed.

Lemma no_char_app (c : ascii) (a b : string) :
  no_char c a → no_char c b → no_char c (a +:+ b).
Proof.
  intros Ha Hb. induction a as [|x a IH]; [done|]. destruct Ha as [Hx Ha].
  rewrite append_cons. split; [done | by apply IH].
Qed.

Lemma no_bracket_uint (d : Decimal.uint) :
  no_char "[" (NilEmpty.string_of_uint d).
Proof. induction d; simpl; try split; try done. Qed.

Lemma no_bracket_str_of_int (n : Z) : no_char "[" (Py.str_of_int n).
Proof.
  unfold Py.str_of_int, NilZero.string_of_int.
  destruct (Z.to_int n) as [d|d]; [|split; [done|]];
    unfold NilZero.string_of_uint; destruct d; try apply no_bracket_uint;
    by repeat split.
Qed.

Lemma no_bracket_page_str (p : option Z) : no_char "[" (RAGService.page_str p).
Proof. destruct p as [n|]; [apply no_bracket_str_of_int | by repeat split]. Qed.

Lemma newline_tail (s : string) :
  ∀ d b', Py.nl +:+ s = String d b' → not_tag_tail d.
Proof. intros d b' [= <- _]. by repeat split. Qed.

Lemma occurrences_newline (s : string) :
  occurrences "[From" (Py.nl +:+ s) = occurrences "[From" s.
Proof. reflexivity. Qed.

(** A block of the context holds the tag of its header, and the tags of the
    book title and of the content of its chunk. *)
Lemma occurrences_context_part (chunk : Chunk.t) :
  occurrences "[From" (RAGService.context_part chunk)
  = 1 + occurrences "[From" (default "Unknown Book" (Chunk.book_title chunk))
      + occurrences "[From" (Chunk.content chunk).
Proof.
  unfold RAGService.context_part. cbn zeta.
  set (title := default "Unknown Book" (Chunk.book_title chunk)).
  set (pages := ", pages " +:+ RAGService.page_str (Chunk.page_start chunk)
                  +:+ "-" +:+ RAGService.page_str (Chunk.page_end chunk) +:+ "]").
  assert (Hshape :
    "[From " +:+ title +:+ ", pages " +:+ RAGService.page_str (Chunk.page_start chunk)
      +:+ "-" +:+ RAGService.page_str (Chunk.page_end chunk) +:+ "]" +:+ Py.nl
      +:+ Chunk.content chunk +:+ Py.nl
    = "[From " +:+ title +:+ pages +:+ Py.nl +:+ Chunk.content chunk +:+ Py.nl).
  { unfold pages. by rewrite !append_assoc. }
  rewrite Hshape.
  assert (Hhead : ∀ x, occurrences "[From" ("[From " +:+ x) = 1 + occurrences "[From" x).
  { intros x. reflexivity. }
  rewrite Hhead, occurrences_app_tail.
  2:{ intros d b' Hb. unfold pages in Hb. injection Hb as <- _. by repeat split. }
  rewrite (occurrences_app_tail pages) by apply newline_tail.
  rewrite occurrences_newline, (occurrences_app_tail (Chunk.content chunk)).
  2:{ intros d b' [= <- _]. by repeat split. }
  rewrite (occurrences_no_bracket pages).
  2:{ unfold pages. repeat apply no_char_app; try apply no_bracket_page_str;
      by repeat split. }
  change (occurrences "[From" Py.nl) with 0. lia.
Qed.

Lemma occurrences_context (chunks : list Chunk.t) :
  occurrences "[From" (RAGService.create_context_from_chunks chunks)
  = sum_list_with
      (λ chunk, 1 + occurrences "[From" (default "Unknown Book" (Chunk.book_title chunk))
                  + occurrences "[From" (Chunk.content chunk))
      chunks.
Proof.
  unfold RAGService.create_context_from_chunks, Py.join. cbn zeta.
  rewrite for_append_map.
  induction chunks as [|chunk chunks IH]; [done|].
  destruct chunks as [|chunk' chunks].
  - change (String.concat Py.nl (map RAGService.context_part [chunk]))
      with (RAGService.context_part chunk).
    rewrite occurrences_context_part. simpl. lia.
  - change (String.concat Py.nl (map RAGService.context_part (chunk :: chunk' :: chunks)))
      with (RAGService.context_part chunk
              +:+ Py.nl +:+ String.concat Py.nl
                              (map RAGService.context_part (chunk' :: chunks))).
    rewrite occurrences_app_tail by apply newline_tail.
    rewrite occurrences_newline, IH, occurrences_context_part. simpl. lia.
Qed.

Lemma tags_of_free_chunks (chunks : list Chunk.t) :
  (∀ chunk, chunk ∈ chunks →
     ¬ contains "[From" (Chunk.content chunk)
     ∧ ∀ title, Chunk.book_title chunk = Some title → ¬ contains "[From" title) →
  sum_list_with
    (λ chunk, 1 + occurrences "[From" (default "Unknown Book" (Chunk.book_title chunk))
                + occurrences "[From" (Chunk.content chunk))
    chunks
  = length chunks.
Proof.
  intros Hfree. induction chunks as [|chunk chunks IH]; [done|].
  cbn [sum_list_with length]. rewrite IH.
  - destruct (Hfree chunk) as [Hcontent Htitle]; [apply list_elem_of_here|].
    rewrite (occurrences_none _ (Chunk.content chunk)) by done.
    destruct (Chunk.book_title chunk) as [title|]; cbn [default].
    + rewrite (occurrences_none _ title); [lia | done | by apply Htitle].
    + change (occurrences "[From" "Unknown Book") with 0. lia.
  - intros c Hc. apply Hfree. by apply list_elem_of_further.
Qed.

Lemma tags_at_least_chunks (chunks : list Chunk.t) :
  length chunks
  ≤ sum_list_with
      (λ chunk, 1 + occurrences "[From" (default "Unknown Book" (Chunk.book_title chunk))
                  + occurrences "[From" (Chunk.content chunk))
      chunks.
Proof.
  induction chunks as [|chunk chunks IH]; [done|]. cbn [sum_list_with length]. lia.
Qed.

(** C10, as it is stated, does not hold: the content of the chunk is free of
    the tag, yet the count is two for one chunk, because the book title holds
    the tag. *)
Lemma tagged_title_counts_twice :
  ¬ contains "[From" (Chunk.content Demo.tagged_title)
  ∧ ∃ rag,
      (RAGService.generate_response Demo.env "What happened?"
         (RAGService.create_context_from_chunks [Demo.tagged_title]) []
         Demo.world0).1 = Ok rag
      ∧ RagResponse.chunks_retrieved rag = 2%Z
      ∧ length [Demo.tagged_title] = 1.
Proof.
  split.
  - intros H. apply contains_occurrences in H; [|done]. vm_compute in H. lia.
  - eexists. split; [vm_compute; reflexivity|]. split; reflexivity.
Qed.

(** C10, amended.  When the LLM invocation succeeds, the chunk count reported
    by answer generation is the number of occurrences of "[From" in the
    context: one for each chunk, plus the occurrences in the book titles and
    in the contents of the chunks.  It is the number of chunks when neither
    the content nor the book title of any chunk contains "[From", it is never
    less, and it is more for a chunk whose content contains "[From". *)
Theorem chunks_retrieved_counts_tags (env : Env) (query : string)
    (chunks : list Chunk.t) (history : list HistoryEntry.t) (w : World)
    (content : string) :
  llm_invoke env
    (RAGService.build_messages query
       (RAGService.create_context_from_chunks chunks) history) = Ok content →
  ∃ rag w',
    RAGService.generate_response env query
      (RAGService.create_context_from_chunks chunks) history w = (Ok rag, w')
    ∧ RagResponse.chunks_retrieved rag
      = Z.of_nat (occurrences "[From" (RAGService.create_context_from_chunks chunks))
    ∧ RagResponse.chunks_retrieved rag
      = Z.of_nat
          (sum_list_with
             (λ chunk,
                1 + occurrences "[From"
                      (match Chunk.book_title chunk with
                       | Some title => title
                       | None => "Unknown Book"
                       end)
                  + occurrences "[From" (Chunk.content chunk))
             chunks)
    ∧ ((∀ chunk, chunk ∈ chunks →
          ¬ contains "[From" (Chunk.content chunk)
          ∧ ∀ title, Chunk.book_title chunk = Some title → ¬ contains "[From" title) →
       RagResponse.chunks_retrieved rag = Z.of_nat (length chunks))
    ∧ (Z.of_nat (length chunks) ≤ RagResponse.chunks_retrieved rag)%Z
    ∧ ∃ tagged,
        contains "[From" (Chunk.content tagged)
        ∧ (Z.of_nat (length [tagged])
           < Z.of_nat (length (Py.split "[From"
                                 (RAGService.create_context_from_chunks [tagged]))) - 1)%Z.
Proof.
  intros Hllm. rewrite generate_response_run, Hllm. eexists _, _. split; [done|].
  cbn [RagResponse.chunks_retrieved]. unfold RAGService.from_tag.
  rewrite split_tag_count, occurrences_context.
  split; [done|]. split; [done|]. split; [|split].
  - intros Hfree. f_equal. by apply tags_of_free_chunks.
  - apply inj_le, tags_at_least_chunks.
  - exists Demo.tagged_content. split; [by exists "see ", " here]" | by vm_compute].
Qed.

Lemma chunks_retrieved_counts_tags_witness :
  ∃ rag,
    (RAGService.generate_response Demo.env "What happened?"
       (RAGService.create_context_from_chunks
          (Demo.one_chunk_per_book [] 5 ["b1"; "b2"])) [] Demo.world0).1 = Ok rag
    ∧ RagResponse.chunks_retrieved rag = 2%Z.
Proof.
  destruct (chunks_retrieved_counts_tags Demo.env "What happened?"
              (Demo.one_chunk_per_book [] 5 ["b1"; "b2"]) [] Demo.world0
              "the answer" eq_refl)
    as (rag & w' & Hrun & Hcount & _).
  exists rag. split; [by rewrite Hrun | exact Hcount].
Defined.

(** * Further properties of the services *)

(** ** The branches of a turn *)

Lemma list_set_nil {A} `{EqDecision A} (l : list A) : Py.list_set l = [] → l = [].
Proof.
  intros H. destruct l as [|x l]; [done|].
  assert (Hx : x ∈ Py.list_set (x :: l)).
  { apply elem_of_remove_dups, list_elem_of_here. }
  rewrite H in Hx. by apply elem_of_nil in Hx.
Qed.

Lemma candidate_book_ids_ok env notebook w :
  ∃ ids cs, ChatService.candidate_book_ids env notebook w = (Ok ids, logged w cs).
Proof.
  destruct (decide (Notebook.selected_books notebook = [])) as [Hnil|Hsel].
  - destruct (candidate_book_ids_genres env notebook w Hnil) as (ids & Hrun & _).
    by eexists _, _.
  - exists (Notebook.selected_books notebook), [].
    by rewrite logged_nil, (candidate_book_ids_selected env notebook w Hsel).
Qed.

Lemma add_book_titles_run env chunks w :
  ChatService.add_book_titles env chunks w
  = match chunks with
    | [] => (Ok [], w)
    | _ =>
        (Ok (map (ChatService.with_book
                    (ChatService.book_map_of
                       (if db_fails env
                             (BooksByIds (Py.list_set (map Chunk.book_id chunks)))
                        then []
                        else filter (λ b, Book.id b
                                          ∈ Py.list_set (map Chunk.book_id chunks))
                               (books w))))
               chunks),
         logged w [DbCall (BooksByIds (Py.list_set (map Chunk.book_id chunks)))])
    end.
Proof.
  unfold ChatService.add_book_titles. destruct chunks as [|c cs]; [done|].
  rewrite (bind_ok _ _ _ _ _ (get_books_by_ids_run env _ w)).
  destruct (Py.list_set (map Chunk.book_id (c :: cs))) as [|i ids] eqn:Hids; [|done].
  by apply list_set_nil in Hids.
Qed.

Lemma add_book_titles_ok env chunks w :
  ∃ chunks' cs,
    ChatService.add_book_titles env chunks w = (Ok chunks', logged w cs)
    ∧ length chunks' = length chunks.
Proof.
  rewrite add_book_titles_run. destruct chunks as [|c cs].
  - exists [], []. by rewrite logged_nil.
  - eexists _, _. split; [done|]. by rewrite length_map.
Qed.

(** A turn ends in one of four ways: the notebook is not found, the
    candidate set is empty, no chunk is found, or chunks are found and the
    answer is generated. *)
Lemma process_chat_cases env chat_request w :
  (∃ cs,
     SupabaseService.get_notebook_by_id env (ChatRequest.notebook_id chat_request)
       (Some (ChatRequest.user_id chat_request)) w = (Ok None, logged w cs)
     ∧ ChatService.process_chat env chat_request w
       = (Ok (ChatResponse.mk ChatService.error_text [] "" []), logged w cs))
  ∨ (∃ notebook cs,
       notebooks w !! ChatRequest.notebook_id chat_request = Some notebook
       ∧ ChatService.process_chat env chat_request w
         = (Ok (ChatResponse.mk ChatService.no_documents_text []
                  (Notebook.memory_summary notebook) (Notebook.key_facts notebook)),
            logged w cs))
  ∨ (∃ notebook cs,
       notebooks w !! ChatRequest.notebook_id chat_request = Some notebook
       ∧ ChatService.process_chat env chat_request w
         = (Ok (ChatResponse.mk ChatService.no_information_text []
                  (Notebook.memory_summary notebook) (Notebook.key_facts notebook)),
            logged w cs))
  ∨ (∃ notebook chunks w5, finds env chat_request w notebook chunks w5).
Proof.
  pose proof (get_notebook_by_id_run env (ChatRequest.notebook_id chat_request)
                (Some (ChatRequest.user_id chat_request)) w) as Hnb.
  unfold ChatService.process_chat, ChatService.process_chat_body.
  rewrite (try_bind_ok _ _ _ _ _ _ Hnb).
  match type of Hnb with _ = (Ok ?o, _) => destruct o as [notebook|] eqn:Hfound end.
  2:{ left. eexists. split; [exact Hnb | done]. }
  right. destruct (get_notebook_found _ _ _ _ _ _ Hnb) as [Hstored _].
  unfold ChatService.with_notebook.
  match type of Hnb with _ = (_, ?w1) =>
    destruct (candidate_book_ids_ok env notebook w1) as (ids & cs & Hids) end.
  rewrite (try_bind_ok _ _ _ _ _ _ Hids).
  destruct ids as [|i ids].
  { left. exists notebook. eexists. split; [exact Hstored|].
    rewrite logged_logged. reflexivity. }
  right. unfold ChatService.retrieve_and_answer.
  match goal with |- context [try_except (bind ?m _) _ ?w2] =>
    match m with RAGService._generate_query_embedding env ?q =>
      pose proof (generate_query_embedding_run env q w2) as Hq end end.
  rewrite (try_bind_ok _ _ _ _ _ _ Hq).
  match type of Hq with _ = (Ok ?qe, ?w3) =>
    pose proof (search_chunks_vector_run env qe (i :: ids) 5 w3) as Hs end.
  rewrite (try_bind_ok _ _ _ _ _ _ Hs).
  match type of Hs with _ = (Ok ?found, ?w4) =>
    destruct (add_book_titles_ok env found w4) as (chunks & cs' & Ht & _) end.
  rewrite (try_bind_ok _ _ _ _ _ _ Ht).
  destruct chunks as [|c chunks].
  { left. exists notebook. eexists. split; [exact Hstored|].
    rewrite !logged_logged. reflexivity. }
  right. exists notebook, (c :: chunks). eexists. unfold finds.
  eexists _, _, _, _, _, _, _. split; [exact Hnb|]. split; [exact Hids|].
  split; [done|]. split; [exact Hq|]. split; [exact Hs|]. split; [exact Ht | done].
Qed.

Lemma finds_logged env chat_request w notebook chunks w' :
  finds env chat_request w notebook chunks w' → ∃ cs, w' = logged w cs.
Proof.
  intros (w1 & ids & w2 & q & w3 & found & w4 & Hnb & Hids & _ & Hq & Hs & Ht & _).
  rewrite get_notebook_by_id_run in Hnb. injection Hnb as _ <-.
  match type of Hids with _ _ _ ?w0 = _ =>
    destruct (candidate_book_ids_ok env notebook w0) as (ids' & cs & Hids') end.
  rewrite Hids in Hids'. injection Hids' as _ ->.
  rewrite generate_query_embedding_run in Hq. injection Hq as _ <-.
  rewrite search_chunks_vector_run in Hs. injection Hs as _ <-.
  match type of Ht with _ _ _ ?w0 = _ =>
    destruct (add_book_titles_ok env found w0) as (chunks' & cs' & Ht' & _) end.
  rewrite Ht in Ht'. injection Ht' as _ ->.
  rewrite !logged_logged. by eexists.
Qed.

(** The outcome of a turn that found chunks: either saving the message
    raises and the turn answers with the generic error, or the message
    returned is the one saved. *)
Lemma process_chat_answer env chat_request w notebook chunks w5 :
  finds env chat_request w notebook chunks w5 →
  ∃ answer memory key_facts,
    (db_fails env
       (SaveChatMessage
          (ChatMessage.mk (ChatRequest.notebook_id chat_request)
             (ChatRequest.message chat_request) answer
             (ChatService._extract_citations chunks))) = true
     ∧ ∃ cs, ChatService.process_chat env chat_request w
             = (Ok (ChatResponse.mk ChatService.error_text [] "" []), logged w cs))
    ∨ (db_fails env
         (SaveChatMessage
            (ChatMessage.mk (ChatRequest.notebook_id chat_request)
               (ChatRequest.message chat_request) answer
               (ChatService._extract_citations chunks))) = false
       ∧ ∃ w',
           ChatService.process_chat env chat_request w
           = (Ok (ChatResponse.mk answer (ChatService._extract_citations chunks)
                    memory key_facts), w')
           ∧ books w' = books w
           ∧ chat_messages w'
             = chat_messages w
               ++ [ChatMessage.mk (ChatRequest.notebook_id chat_request)
                     (ChatRequest.message chat_request) answer
                     (ChatService._extract_citations chunks)]
           ∧ (notebooks w' = notebooks w
              ∨ ∃ updated_at,
                  notebooks w'
                  = alter (SupabaseService.set_memory memory key_facts updated_at)
                      (ChatRequest.notebook_id chat_request) (notebooks w))).
Proof.
  intros Hfinds. rewrite (process_chat_finds _ _ _ _ _ _ Hfinds).
  destruct (finds_logged _ _ _ _ _ _ Hfinds) as [cs ->].
  pose proof (get_chat_history_run env (ChatRequest.notebook_id chat_request) 10
                (logged w cs)) as Hh.
  match type of Hh with _ = (Ok ?hist, ?w6) =>
    pose proof (generate_response_run env (ChatRequest.message chat_request)
                  (RAGService.create_context_from_chunks chunks)
                  (ChatService._format_chat_history hist) w6) as Hg end.
  destruct (answer_turn_run env chat_request notebook chunks _ _ _ _ _ Hh Hg)
    as (mc & kf & Hrun).
  cbn zeta in Hrun. rewrite Hrun. clear Hrun Hh Hg.
  destruct (db_fails env (SaveChatMessage _)) eqn:Hsave.
  - eexists _, "", kf. left. split; [exact Hsave|]. rewrite !logged_logged.
    by eexists.
  - eexists _, _, kf. right. split; [exact Hsave|]. eexists. split; [reflexivity|]. simpl.
    split; [done|]. split; [done|].
    destruct (db_fails env (UpdateNotebookMemory _ _ _)); [by left | right; by eexists].
Qed.

Lemma extract_citations_length chunks :
  length (ChatService._extract_citations chunks) = length chunks.
Proof. unfold ChatService._extract_citations. by rewrite for_append_map, length_map. Qed.

(** ** The generic error response *)

(** X1.  A turn never raises.  It answers with the generic error response
    (the apology without citations, memory or key facts) only when the
    notebook is not found for the user of the request, or when saving the chat
    message raises; the store tables are then as they were before the turn. *)
Theorem generic_error_causes (env : Env) (chat_request : ChatRequest.t) (w : World) :
  ∃ resp w',
    ChatService.process_chat env chat_request w = (Ok resp, w')
    ∧ (resp = ChatResponse.mk
                "I apologize, but I encountered an error while processing your request. Please try again."
                [] "" [] →
       (books w' = books w ∧ notebooks w' = notebooks w
        ∧ chat_messages w' = chat_messages w)
       ∧ ((SupabaseService.get_notebook_by_id env (ChatRequest.notebook_id chat_request)
             (Some (ChatRequest.user_id chat_request)) w).1 = Ok None
          ∨ ∃ notebook chunks w5 answer,
              finds env chat_request w notebook chunks w5
              ∧ db_fails env
                  (SaveChatMessage
                     (ChatMessage.mk (ChatRequest.notebook_id chat_request)
                        (ChatRequest.message chat_request) answer
                        (ChatService._extract_citations chunks))) = true)).
Proof.
  destruct (process_chat_cases env chat_request w)
    as [(cs & Hnone & Hrun)|[(nb & cs & _ & Hrun)|[(nb & cs & _ & Hrun)
       |(nb & chunks & w5 & Hfinds)]]].
  - eexists _, _. split; [exact Hrun|]. intros _. split; [done|]. left.
    by rewrite Hnone.
  - eexists _, _. split; [exact Hrun|]. intros [=].
  - eexists _, _. split; [exact Hrun|]. intros [=].
  - destruct (process_chat_answer _ _ _ _ _ _ Hfinds)
      as (answer & memory & kf & [[Hsave (cs & Hrun)]|[Hsave (w' & Hrun & _)]]).
    + eexists _, _. split; [exact Hrun|]. intros _. split; [done|]. right.
      by exists nb, chunks, w5, answer.
    + eexists _, _. split; [exact Hrun|]. intros [= _ Hcit _ _]. exfalso.
      destruct Hfinds as (? & ? & ? & ? & ? & ? & ? & _ & _ & _ & _ & _ & _ & Hne).
      apply (f_equal length) in Hcit. rewrite extract_citations_length in Hcit.
      by destruct chunks.
Qed.

(** X2.  A turn on a notebook that is not stored, or that belongs to another
    user than the (non-empty) user id of the request, answers with the generic
    error response.  It reads the notebook once and does nothing else: no
    embedding, no search, no LLM call, no write. *)
Theorem foreign_notebook_turn (env : Env) (chat_request : ChatRequest.t) (w : World) :
  ChatRequest.user_id chat_request ≠ "" →
  (∀ notebook,
     notebooks w !! ChatRequest.notebook_id chat_request = Some notebook →
     Notebook.user_id notebook ≠ ChatRequest.user_id chat_request) →
  ChatService.process_chat env chat_request w
  = (Ok (ChatResponse.mk
           "I apologize, but I encountered an error while processing your request. Please try again."
           [] "" []),
     logged w [DbCall (GetNotebook (ChatRequest.notebook_id chat_request)
                         (Some (ChatRequest.user_id chat_request)))]).
Proof.
  intros Huser Hforeign.
  pose proof (get_notebook_by_id_run env (ChatRequest.notebook_id chat_request)
                (Some (ChatRequest.user_id chat_request)) w) as Hnb.
  unfold ChatService.process_chat, ChatService.process_chat_body.
  rewrite (try_bind_ok _ _ _ _ _ _ Hnb).
  destruct (db_fails env _); [done|].
  destruct (notebooks w !! ChatRequest.notebook_id chat_request) as [nb|] eqn:Hstored;
    [|done].
  unfold SupabaseService.user_filter. destruct (decide _); [done|].
  rewrite bool_decide_eq_false_2; [done|]. by apply Hforeign.
Qed.

Lemma foreign_notebook_turn_witness :
  ChatService.process_chat Demo.env (ChatRequest.mk "n3" "What happened?" "u2")
    Demo.world3
  = (Ok (ChatResponse.mk ChatService.error_text [] "" []),
     logged Demo.world3 [DbCall (GetNotebook "n3" (Some "u2"))]).
Proof.
  apply (foreign_notebook_turn Demo.env (ChatRequest.mk "n3" "What happened?" "u2")
           Demo.world3).
  - discriminate.
  - intros notebook Hstored. vm_compute in Hstored. injection Hstored as <-.
    discriminate.
Defined.

(** X3.  The notebook lookup returns only a notebook stored under the id
    asked for, and, for a non-empty user id, only one of that user.  Without a
    user id, or with the empty string as user id, the owner is not compared:
    the stored notebook is returned whoever owns it. *)
Theorem notebook_lookup_scope (env : Env) (notebook_id : string)
    (user_id : option string) (w : World) :
  (∀ notebook w1,
     SupabaseService.get_notebook_by_id env notebook_id user_id w
     = (Ok (Some notebook), w1) →
     notebooks w !! notebook_id = Some notebook
     ∧ ∀ u, user_id = Some u → u ≠ "" → Notebook.user_id notebook = u)
  ∧ (∀ notebook,
       db_fails env (GetNotebook notebook_id user_id) = false →
       notebooks w !! notebook_id = Some notebook →
       user_id = None ∨ user_id = Some "" →
       (SupabaseService.get_notebook_by_id env notebook_id user_id w).1
       = Ok (Some notebook))
  ∧ ∃ found,
      SupabaseService.get_notebook_by_id env notebook_id user_id w
      = (Ok found, logged w [DbCall (GetNotebook notebook_id user_id)]).
Proof.
  rewrite get_notebook_by_id_run. split; [|split].
  - intros notebook w1 [= Hfound _].
    destruct (db_fails env _); [done|].
    destruct (notebooks w !! notebook_id) as [nb|]; [|done].
    destruct (SupabaseService.user_filter user_id nb) eqn:Hfilter; [|done].
    injection Hfound as ->. split; [done|]. intros u -> Hu.
    unfold SupabaseService.user_filter in Hfilter.
    destruct (decide (u = "")); [done|]. by apply bool_decide_eq_true in Hfilter.
  - intros notebook -> -> [-> | ->]; simpl; done.
  - by eexists.
Qed.

(** ** A search that finds nothing *)

(** X4.  When the vector search raises, or returns no row, the turn answers
    with the fixed no-information message and the stored memory summary and
    key facts of the notebook.  The search is the last call of the turn: no
    book lookup, no LLM invocation and no write follow. *)
Theorem failed_search_reads_as_no_match (env : Env) (chat_request : ChatRequest.t)
    (w w1 w2 w3 : World) (notebook : Notebook.t) (book_ids : list string)
    (query_embedding : vector) :
  SupabaseService.get_notebook_by_id env (ChatRequest.notebook_id chat_request)
    (Some (ChatRequest.user_id chat_request)) w = (Ok (Some notebook), w1) →
  ChatService.candidate_book_ids env notebook w1 = (Ok book_ids, w2) →
  book_ids ≠ [] →
  RAGService._generate_query_embedding env (ChatRequest.message chat_request) w2
  = (Ok query_embedding, w3) →
  db_fails env (MatchDocuments query_embedding 5 book_ids) = true
  ∨ match_documents env query_embedding 5 book_ids = [] →
  ChatService.process_chat env chat_request w
  = (Ok (ChatResponse.mk
           "I couldn't find any relevant information in the selected documents to answer your question. Please try rephrasing or ask about a different topic."
           [] (Notebook.memory_summary notebook) (Notebook.key_facts notebook)),
     logged w3 [DbCall (MatchDocuments query_embedding 5 book_ids)]).
Proof.
  intros Hnb Hids Hne Hq Hnone.
  unfold ChatService.process_chat, ChatService.process_chat_body.
  rewrite (try_bind_ok _ _ _ _ _ _ Hnb). unfold ChatService.with_notebook.
  rewrite (try_bind_ok _ _ _ _ _ _ Hids). destruct book_ids as [|i ids]; [done|].
  unfold ChatService.retrieve_and_answer.
  rewrite (try_bind_ok _ _ _ _ _ _ Hq).
  rewrite (try_bind_ok _ _ _ _ _ _ (search_chunks_vector_run env _ _ _ _)).
  assert (Hfound : (if db_fails env (MatchDocuments query_embedding 5 (i :: ids))
                    then [] else match_documents env query_embedding 5 (i :: ids)) = []).
  { destruct Hnone as [-> | ->]; [done | by destruct (db_fails env _)]. }
  rewrite Hfound. done.
Qed.

Lemma failed_search_reads_as_no_match_witness :
  ∃ w',
    ChatService.process_chat (Outage.env_failing Outage.search_down)
      (Demo.request "n3") Demo.world3
    = (Ok (ChatResponse.mk ChatService.no_information_text [] "earlier summary" []), w')
    ∧ chat_messages w' = chat_messages Demo.world3
    ∧ length (calls w') = 5.
Proof.
  eassert (Hnb : SupabaseService.get_notebook_by_id
                   (Outage.env_failing Outage.search_down) "n3" (Some "u1") Demo.world3
                 = (Ok (Some (Notebook.mk "u1" "genres" [] ["history"; "science"]
                                "earlier summary" [] Demo.t0)), _))
    by (vm_compute; reflexivity).
  match type of Hnb with _ = (Ok (Some ?nb), ?w1) =>
    eassert (Hids : ChatService.candidate_book_ids
                      (Outage.env_failing Outage.search_down) nb w1 = (Ok _, _))
      by (vm_compute; reflexivity) end.
  match type of Hids with _ = (_, ?w2) =>
    eassert (Hq : RAGService._generate_query_embedding
                    (Outage.env_failing Outage.search_down) "What happened?" w2
                  = (Ok _, _))
      by (vm_compute; reflexivity) end.
  pose proof (failed_search_reads_as_no_match
                (Outage.env_failing Outage.search_down) (Demo.request "n3")
                Demo.world3 _ _ _ _ _ _ Hnb Hids ltac:(discriminate) Hq
                (or_introl eq_refl)) as Hrun.
  eexists. split; [exact Hrun|]. split; reflexivity.
Defined.

(** ** What a turn leaves in the store *)

(** X5.  Whatever the collaborators answer, a turn never changes the books
    table, never changes, creates or deletes another notebook, and keeps the
    owner, the name and the selections of its own notebook; it leaves the
    chat messages as they are or appends one message, which is of its notebook
    and holds the message of the request. *)
Theorem turn_frame (env : Env) (chat_request : ChatRequest.t) (w : World) :
  books (ChatService.process_chat env chat_request w).2 = books w
  ∧ (∀ k, k ≠ ChatRequest.notebook_id chat_request →
          notebooks (ChatService.process_chat env chat_request w).2 !! k
          = notebooks w !! k)
  ∧ (∀ k,
       (λ nb, (Notebook.user_id nb, Notebook.name nb,
               Notebook.selected_books nb, Notebook.selected_genres nb))
         <$> notebooks (ChatService.process_chat env chat_request w).2 !! k
       = (λ nb, (Notebook.user_id nb, Notebook.name nb,
                 Notebook.selected_books nb, Notebook.selected_genres nb))
           <$> notebooks w !! k)
  ∧ (chat_messages (ChatService.process_chat env chat_request w).2 = chat_messages w
     ∨ ∃ row,
         chat_messages (ChatService.process_chat env chat_request w).2
         = chat_messages w ++ [row]
         ∧ ChatMessage.notebook_id row = ChatRequest.notebook_id chat_request
         ∧ ChatMessage.user_message row = ChatRequest.message chat_request).
Proof.
  destruct (process_chat_cases env chat_request w)
    as [(cs & _ & Hrun)|[(nb & cs & _ & Hrun)|[(nb & cs & _ & Hrun)
       |(nb & chunks & w5 & Hfinds)]]];
    try (rewrite Hrun; simpl; split; [done|]; split; [done|]; split; [done|];
         by left).
  destruct (process_chat_answer _ _ _ _ _ _ Hfinds)
    as (answer & memory & kf & [[_ (cs & Hrun)]|[_ (w' & Hrun & Hb & Hm & Hn)]]);
    rewrite Hrun; simpl.
  - split; [done|]. split; [done|]. split; [done|]. by left.
  - split; [done|]. split; [|split].
    + intros k Hk. destruct Hn as [-> | [t ->]]; [done|]. by rewrite lookup_alter_ne.
    + intros k. destruct Hn as [-> | [t ->]]; [done|].
      destruct (decide (ChatRequest.notebook_id chat_request = k)) as [<-|Hk].
      * rewrite lookup_alter_eq. by destruct (notebooks w !! _).
      * by rewrite lookup_alter_ne.
    + right. by eexists.
Qed.

(** X6.  A turn that found chunks either saves exactly the message it
    returns (the answer and the citations of the response, one citation for
    each chunk), or, when saving raises, returns the generic error response
    and leaves every table as it was: the notebook memory is never written
    without the chat message. *)
Theorem saved_message_is_response (env : Env) (chat_request : ChatRequest.t)
    (w : World) (notebook : Notebook.t) (chunks : list Chunk.t) (w5 : World) :
  finds env chat_request w notebook chunks w5 →
  ∃ resp w',
    ChatService.process_chat env chat_request w = (Ok resp, w')
    ∧ ((chat_messages w'
        = chat_messages w
          ++ [ChatMessage.mk (ChatRequest.notebook_id chat_request)
                (ChatRequest.message chat_request)
                (ChatResponse.response resp) (ChatResponse.citations resp)]
        ∧ length (ChatResponse.citations resp) = length chunks)
       ∨ (resp = ChatResponse.mk ChatService.error_text [] "" []
          ∧ books w' = books w ∧ notebooks w' = notebooks w
          ∧ chat_messages w' = chat_messages w)).
Proof.
  intros Hfinds.
  destruct (process_chat_answer _ _ _ _ _ _ Hfinds)
    as (answer & memory & kf & [[_ (cs & Hrun)]|[_ (w' & Hrun & Hb & Hm & Hn)]]);
    eexists _, _; (split; [exact Hrun|]).
  - by right.
  - left. split; [exact Hm|]. apply extract_citations_length.
Qed.

Lemma saved_message_is_response_witness :
  ∃ resp w',
    ChatService.process_chat Demo.env (Demo.request "n3") Demo.world3 = (Ok resp, w')
    ∧ length (chat_messages w') = 4
    ∧ last (chat_messages w')
      = Some (ChatMessage.mk "n3" "What happened?" (ChatResponse.response resp)
                (ChatResponse.citations resp)).
Proof.
  assert (Hfinds : finds Demo.env (Demo.request "n3") Demo.world3
            (Notebook.mk "u1" "genres" [] ["history"; "science"] "earlier summary" [] Demo.t0)
            _ _) by run_finds.
  destruct (saved_message_is_response _ _ _ _ _ _ Hfinds)
    as (resp & w' & Hrun & [[Hm _]|[Herr _]]).
  - exists resp, w'. split; [exact Hrun|]. rewrite Hm. split; [reflexivity|].
    apply last_snoc.
  - exfalso. vm_compute in Hrun. rewrite Herr in Hrun. discriminate Hrun.
Defined.

(** ** The calls of the answer phase *)

(** X7.  After retrieval a turn reads the history once and invokes the LLM
    exactly three times, for the answer, for the memory summary and for the
    key facts, without any retry; the prompts of the summary and of the key
    facts hold the answer of the turn, which is the apology text when answer
    generation failed.  Then the chat message is saved with that answer, and
    the notebook memory is updated only if saving did not raise. *)
Theorem answer_phase_calls (env : Env) (chat_request : ChatRequest.t)
    (w : World) (notebook : Notebook.t) (chunks : list Chunk.t) (w5 : World) :
  finds env chat_request w notebook chunks w5 →
  ∃ hist answer tail,
    (SupabaseService.get_chat_history env (ChatRequest.notebook_id chat_request) 10 w5).1
    = Ok hist
    ∧ answer
      = match llm_invoke env
                (RAGService.build_messages (ChatRequest.message chat_request)
                   (RAGService.create_context_from_chunks chunks)
                   (ChatService._format_chat_history hist)) with
        | Ok content => content
        | Raise _ =>
            "I apologize, but I encountered an error while processing your request. Please try again."
        end
    ∧ calls (ChatService.process_chat env chat_request w).2
      = calls w5
        ++ [DbCall (ChatHistory (ChatRequest.notebook_id chat_request) 10);
            LlmCall (RAGService.build_messages (ChatRequest.message chat_request)
                       (RAGService.create_context_from_chunks chunks)
                       (ChatService._format_chat_history hist));
            LlmCall (RAGService.memory_messages (Notebook.memory_summary notebook)
                       (Conversation.mk (ChatRequest.message chat_request) answer));
            LlmCall (RAGService.facts_messages
                       (Conversation.mk (ChatRequest.message chat_request) answer));
            DbCall (SaveChatMessage
                      (ChatMessage.mk (ChatRequest.notebook_id chat_request)
                         (ChatRequest.message chat_request) answer
                         (ChatService._extract_citations chunks)))]
        ++ tail
    ∧ ((tail = []
        ∧ db_fails env
            (SaveChatMessage
               (ChatMessage.mk (ChatRequest.notebook_id chat_request)
                  (ChatRequest.message chat_request) answer
                  (ChatService._extract_citations chunks))) = true)
       ∨ (∃ memory key_facts,
            tail = [DbCall (UpdateNotebookMemory
                              (ChatRequest.notebook_id chat_request) memory key_facts)]
            ∧ db_fails env
                (SaveChatMessage
                   (ChatMessage.mk (ChatRequest.notebook_id chat_request)
                      (ChatRequest.message chat_request) answer
                      (ChatService._extract_citations chunks))) = false)).
Proof.
  intros Hfinds. rewrite (process_chat_finds _ _ _ _ _ _ Hfinds).
  unfold ChatService.answer_turn.
  rewrite (try_bind_ok _ _ _ _ _ _ (get_chat_history_run env _ 10 w5)).
  rewrite (try_bind_ok _ _ _ _ _ _ (generate_response_run env _ _ _ _)).
  rewrite (try_bind_ok _ _ _ _ _ _ (update_notebook_memory_step_run env _ _ _ _)).
  rewrite (try_bind_ok _ _ _ _ _ _ (extract_key_facts_run env _ _)).
  rewrite get_chat_history_run. cbn [fst].
  set (hist := if db_fails env (ChatHistory (ChatRequest.notebook_id chat_request) 10)
               then []
               else take 10
                      (filter (λ m, ChatMessage.notebook_id m
                                    = ChatRequest.notebook_id chat_request)
                         (chat_messages w5))).
  exists hist.
  exists (match llm_invoke env
                  (RAGService.build_messages (ChatRequest.message chat_request)
                     (RAGService.create_context_from_chunks chunks)
                     (ChatService._format_chat_history hist)) with
          | Ok content => content
          | Raise _ => RAGService.error_text
          end).
  destruct (llm_invoke env (RAGService.build_messages _ _ _)) as [content|e];
    cbn [RagResponse.response]; unfold try_except, bind;
    rewrite save_chat_message_run;
    (destruct (db_fails env (SaveChatMessage _)) eqn:Hsave;
     [exists []; split; [done|]; split; [done|]; split; [|by left];
      unfold logged; simpl; by rewrite <- !app_assoc
     |rewrite update_notebook_memory_run; eexists [_];
      split; [done|]; split; [done|]; split;
      [destruct (db_fails env (UpdateNotebookMemory _ _ _));
       unfold logged; simpl; by rewrite <- !app_assoc
      |right; by eexists _, _]]).
Qed.

Lemma answer_phase_calls_witness :
  ∃ chunks w5 answer,
    finds (Demo.env_with Demo.llm_no_answer Demo.embed_ok) (Demo.request "n3")
      Demo.world3
      (Notebook.mk "u1" "genres" [] ["history"; "science"] "earlier summary" [] Demo.t0)
      chunks w5
    ∧ answer = ChatService.error_text
    ∧ LlmCall (RAGService.facts_messages (Conversation.mk "What happened?" answer))
        ∈ calls (ChatService.process_chat
                   (Demo.env_with Demo.llm_no_answer Demo.embed_ok)
                   (Demo.request "n3") Demo.world3).2.
Proof.
  eexists _, _.
  assert (Hfinds : finds (Demo.env_with Demo.llm_no_answer Demo.embed_ok)
            (Demo.request "n3") Demo.world3
            (Notebook.mk "u1" "genres" [] ["history"; "science"] "earlier summary" [] Demo.t0)
            _ _) by run_finds.
  destruct (answer_phase_calls _ _ _ _ _ _ Hfinds)
    as (hist & answer & tail & Hhist & Hanswer & Hcalls & _).
  injection Hhist as <-. exists answer. split; [exact Hfinds|].
  split; [exact Hanswer|]. rewrite Hcalls.
  rewrite !elem_of_app. right. left.
  do 3 apply list_elem_of_further. apply list_elem_of_here.
Defined.

(** ** Chat messages: saving and reading back *)

(** X8.  The history read for a notebook holds at most [limit] messages, all
    of that notebook, and they are the first ones in the order of saving.
    Once the notebook has [limit] messages, messages saved later do not
    change what is read: the history of a turn stays the oldest ten
    messages. *)
Theorem chat_history_is_oldest (env : Env) (notebook_id : string) (limit : nat)
    (w : World) :
  ∃ hist,
    SupabaseService.get_chat_history env notebook_id limit w
    = (Ok hist, logged w [DbCall (ChatHistory notebook_id limit)])
    ∧ length hist ≤ limit
    ∧ Forall (λ m, ChatMessage.notebook_id m = notebook_id) hist
    ∧ hist `prefix_of`
        filter (λ m, ChatMessage.notebook_id m = notebook_id) (chat_messages w)
    ∧ (db_fails env (ChatHistory notebook_id limit) = false →
       limit ≤ length (filter (λ m, ChatMessage.notebook_id m = notebook_id)
                         (chat_messages w)) →
       ∀ w' later,
         chat_messages w' = chat_messages w ++ later →
         (SupabaseService.get_chat_history env notebook_id limit w').1 = Ok hist).
Proof.
  rewrite get_chat_history_run. eexists. split; [done|].
  destruct (db_fails env _) eqn:Hup.
  - split; [simpl; lia|]. split; [constructor|]. split; [by eexists | done].
  - split; [rewrite length_take; lia|]. split.
    + apply Forall_take, Forall_forall. by intros m [? _]%list_elem_of_filter.
    + split; [eexists; symmetry; apply take_drop|].
      intros _ Hfull w' later Hlater.
      rewrite get_chat_history_run, Hlater, filter_app, Hup. cbn [fst].
      by rewrite take_app_le.
Qed.

(** X9.  A message saved without failure is appended to the table and read
    back as the last message of the history of its notebook, as long as that
    history was shorter than the limit; the history of every other notebook
    is read as before.  When the store raises, saving raises and nothing is
    stored. *)
Theorem saved_message_read_back (env : Env) (row : ChatMessage.t) (limit : nat)
    (w : World) :
  (db_fails env (SaveChatMessage row) = true →
   SupabaseService.save_chat_message env row w
   = (Raise (ExternalError "store"), logged w [DbCall (SaveChatMessage row)]))
  ∧ (db_fails env (SaveChatMessage row) = false →
     ∃ w1,
       SupabaseService.save_chat_message env row w = (Ok (Some row), w1)
       ∧ chat_messages w1 = chat_messages w ++ [row]
       ∧ books w1 = books w ∧ notebooks w1 = notebooks w
       ∧ ∀ n hist,
           db_fails env (ChatHistory n limit) = false →
           (SupabaseService.get_chat_history env n limit w).1 = Ok hist →
           (n ≠ ChatMessage.notebook_id row →
            (SupabaseService.get_chat_history env n limit w1).1 = Ok hist)
           ∧ (n = ChatMessage.notebook_id row → length hist < limit →
              (SupabaseService.get_chat_history env n limit w1).1 = Ok (hist ++ [row]))).
Proof.
  rewrite save_chat_message_run. split; intros ->; [done|].
  eexists. split; [done|]. do 3 (split; [done|]).
  intros n hist Hup. rewrite !get_chat_history_run, Hup. cbn [fst chat_messages].
  intros [= <-]. rewrite filter_app. split.
  - intros Hn. rewrite (filter_cons_False _ row []) by (simpl; congruence).
    by rewrite filter_nil, app_nil_r.
  - intros Hn Hshort. rewrite (filter_cons_True _ row []) by (simpl; congruence).
    rewrite filter_nil. rewrite length_take in Hshort.
    rewrite !take_ge; [done | lia |]. rewrite length_app. simpl. lia.
Qed.

Lemma saved_message_read_back_witness :
  ∃ w1,
    SupabaseService.save_chat_message Demo.env (Demo.turn 4) Demo.world3
    = (Ok (Some (Demo.turn 4)), w1)
    ∧ (SupabaseService.get_chat_history Demo.env "n3" 10 w1).1
      = Ok [Demo.turn 1; Demo.turn 2; Demo.turn 3; Demo.turn 4].
Proof.
  destruct (proj2 (saved_message_read_back Demo.env (Demo.turn 4) 10 Demo.world3)
              eq_refl) as (w1 & Hrun & _ & _ & _ & Hread).
  exists w1. split; [exact Hrun|].
  destruct (Hread "n3" [Demo.turn 1; Demo.turn 2; Demo.turn 3] eq_refl eq_refl)
    as [_ Hsame].
  apply Hsame; [reflexivity | simpl; lia].
Defined.

(** ** Notebook memory: updating and reading back *)

(** X10.  An update of the notebook memory that the store accepts replaces
    three columns of the notebook with that id: the memory summary, the key
    facts, and [updated_at], which becomes the reading of the clock taken
    before the request.  A lookup afterwards returns the notebook with these
    values and its owner, name and selections; other notebooks, the books
    and the chat messages are untouched.  The result is [True] exactly when
    the notebook exists; for an unknown id nothing changes.  When the store
    raises, the update answers [False] and nothing changes, so the caller
    cannot tell a failure from an unknown notebook. *)
Theorem memory_update_read_back (env : Env) (notebook_id : string)
    (memory : string) (facts : list string) (w : World) :
  (db_fails env (UpdateNotebookMemory notebook_id memory facts) = true →
   SupabaseService.update_notebook_memory env notebook_id memory facts w
   = (Ok false, logged w [DbCall (UpdateNotebookMemory notebook_id memory facts)]))
  ∧ (db_fails env (UpdateNotebookMemory notebook_id memory facts) = false →
     ∃ w1,
       SupabaseService.update_notebook_memory env notebook_id memory facts w
       = (Ok (bool_decide (is_Some (notebooks w !! notebook_id))), w1)
       ∧ books w1 = books w ∧ chat_messages w1 = chat_messages w
       ∧ (∀ k, k ≠ notebook_id → notebooks w1 !! k = notebooks w !! k)
       ∧ (notebooks w !! notebook_id = None → notebooks w1 = notebooks w)
       ∧ ∀ notebook,
           notebooks w !! notebook_id = Some notebook →
           db_fails env (GetNotebook notebook_id None) = false →
           (SupabaseService.get_notebook_by_id env notebook_id None w1).1
           = Ok (Some (Notebook.mk (Notebook.user_id notebook) (Notebook.name notebook)
                         (Notebook.selected_books notebook)
                         (Notebook.selected_genres notebook) memory facts
                         (utcnow env (calls w))))).
Proof.
  rewrite update_notebook_memory_run. split; intros ->; [done|].
  eexists. split; [done|]. split; [done|]. split; [done|]. cbn [notebooks].
  split; [|split].
  - intros k Hk. by rewrite lookup_alter_ne.
  - intros Hnone. apply map_eq. intros k.
    destruct (decide (notebook_id = k)) as [<-|Hk].
    + by rewrite lookup_alter_eq, Hnone.
    + by rewrite lookup_alter_ne.
  - intros notebook Hstored Hup. rewrite get_notebook_by_id_run, Hup.
    cbn [fst notebooks]. by rewrite lookup_alter_eq, Hstored.
Qed.

Lemma memory_update_read_back_witness :
  ∃ w1,
    SupabaseService.update_notebook_memory Demo.env "n2" "new summary" ["- new"]
      Demo.world0 = (Ok true, w1)
    ∧ (SupabaseService.get_notebook_by_id Demo.env "n2" None w1).1
      = Ok (Some (Notebook.mk "u1" "empty" [] [] "new summary" ["- new"]
                    "2024-05-02T09:00:00")).
Proof.
  destruct (proj2 (memory_update_read_back Demo.env "n2" "new summary" ["- new"]
                     Demo.world0) eq_refl)
    as (w1 & Hrun & _ & _ & _ & _ & Hread).
  exists w1. split; [exact Hrun|].
  apply (Hread (Notebook.mk "u1" "empty" [] [] "earlier summary" ["- a fact"] Demo.t0));
    [vm_compute | ]; reflexivity.
Defined.

(** ** Book titles of the chunks found *)

Lemma book_map_from_lookup (books_data : list Book.t) (m : gmap string Book.t) k b :
  fold_left (λ m book, <[Book.id book := book]> m) books_data m !! k = Some b →
  (b ∈ books_data ∧ Book.id b = k) ∨ m !! k = Some b.
Proof.
  revert m. induction books_data as [|book rest IH]; intros m; simpl; [by right|].
  intros [[Hb Hk]|Hm]%IH.
  - left. split; [by apply list_elem_of_further | done].
  - destruct (decide (Book.id book = k)) as [<-|Hne].
    + rewrite lookup_insert_eq in Hm. injection Hm as <-. left.
      split; [apply list_elem_of_here | done].
    + rewrite lookup_insert_ne in Hm by done. by right.
Qed.

Lemma book_map_from_is_Some (books_data : list Book.t) (m : gmap string Book.t) k :
  (∃ b, b ∈ books_data ∧ Book.id b = k) ∨ is_Some (m !! k) →
  is_Some (fold_left (λ m book, <[Book.id book := book]> m) books_data m !! k).
Proof.
  revert m. induction books_data as [|book rest IH]; intros m; simpl.
  - intros [(b & ?%elem_of_nil & _)|H]; done.
  - intros [(b & Hb & Hk)|H]; apply IH.
    + apply elem_of_cons in Hb as [->|Hb].
      * right. rewrite Hk, lookup_insert_eq. by eexists.
      * left. by exists b.
    + right. destruct (decide (Book.id book = k)) as [<-|Hne].
      * rewrite lookup_insert_eq. by eexists.
      * by rewrite lookup_insert_ne.
Qed.

Lemma Forall2_map_self {A B} (P : A → B → Prop) (f : A → B) (l : list A) :
  (∀ x, x ∈ l → P x (f x)) → Forall2 P l (map f l).
Proof.
  induction l as [|x l IH]; intros H; simpl; constructor.
  - apply H, list_elem_of_here.
  - apply IH. intros y Hy. by apply H, list_elem_of_further.
Qed.

(** X11.  Adding book titles never raises and sends at most one request to
    the store, for the distinct book ids of the chunks.  It keeps the number
    and order of the chunks and, for every chunk, its content, book id and
    pages.  A chunk either keeps its title and author, or receives those of a
    stored book with its book id; it receives them whenever such a book is
    stored and the request does not raise. *)
Theorem book_titles_from_store (env : Env) (chunks : list Chunk.t) (w : World) :
  ∃ chunks' w',
    ChatService.add_book_titles env chunks w = (Ok chunks', w')
    ∧ (w' = w
       ∨ ∃ ids, w' = logged w [DbCall (BooksByIds ids)]
                ∧ NoDup ids ∧ ∀ x, x ∈ ids ↔ x ∈ map Chunk.book_id chunks)
    ∧ Forall2
        (λ c c',
           Chunk.content c' = Chunk.content c
           ∧ Chunk.book_id c' = Chunk.book_id c
           ∧ Chunk.page_start c' = Chunk.page_start c
           ∧ Chunk.page_end c' = Chunk.page_end c
           ∧ ((Chunk.book_title c' = Chunk.book_title c
               ∧ Chunk.book_author c' = Chunk.book_author c)
              ∨ ∃ b, b ∈ books w ∧ Book.id b = Chunk.book_id c
                     ∧ Chunk.book_title c' = Some (Book.title b)
                     ∧ Chunk.book_author c' = Some (Book.author b))
           ∧ (db_fails env (BooksByIds (Py.list_set (map Chunk.book_id chunks))) = false →
              (∃ b, b ∈ books w ∧ Book.id b = Chunk.book_id c) →
              ∃ b, b ∈ books w ∧ Book.id b = Chunk.book_id c
                   ∧ Chunk.book_title c' = Some (Book.title b)
                   ∧ Chunk.book_author c' = Some (Book.author b)))
        chunks chunks'.
Proof.
  rewrite add_book_titles_run. destruct chunks as [|c0 cs0].
  { eexists _, _. split; [done|]. split; [by left | constructor]. }
  set (chunks := c0 :: cs0).
  set (ids := Py.list_set (map Chunk.book_id chunks)).
  eexists _, _. split; [done|]. split.
  { right. exists ids. split; [done|]. split; [apply NoDup_remove_dups|].
    intros x. apply elem_of_remove_dups. }
  set (books_data := if db_fails env (BooksByIds ids) then []
                     else filter (λ b, Book.id b ∈ ids) (books w)).
  match goal with |- Forall2 ?P _ _ => set (Q := P) end.
  apply Forall2_map_self.
  intros c Hc. unfold Q. unfold ChatService.with_book, ChatService.book_map_of.
    assert (Hstored : ∀ b,
              fold_left (λ m book, <[Book.id book := book]> m) books_data
                (∅ : gmap string Book.t) !! Chunk.book_id c = Some b →
              b ∈ books w ∧ Book.id b = Chunk.book_id c).
    { intros b [[Hb Hk]|Hm]%book_map_from_lookup; [|by rewrite lookup_empty in Hm].
      split; [|done]. unfold books_data in Hb. destruct (db_fails env _).
      - by apply elem_of_nil in Hb.
      - by apply list_elem_of_filter in Hb as [_ Hb]. }
    destruct (fold_left (λ m book, <[Book.id book := book]> m) books_data
                (∅ : gmap string Book.t) !! Chunk.book_id c) as [b|] eqn:Hlook; simpl.
    - destruct (Hstored b eq_refl) as [Hb Hk].
      do 4 (split; [done|]). split; [right; by exists b|]. intros _ _. by exists b.
    - do 4 (split; [done|]). split; [by left|]. intros Hup (b & Hb & Hk). exfalso.
      assert (Hsome : is_Some (fold_left (λ m book, <[Book.id book := book]> m)
                                 books_data (∅ : gmap string Book.t)
                                 !! Chunk.book_id c)).
      { apply book_map_from_is_Some. left. exists b. split; [|done].
        unfold books_data. rewrite Hup. apply list_elem_of_filter. split; [|done].
        rewrite Hk. apply elem_of_remove_dups. rewrite map_fmap.
        by apply list_elem_of_fmap_2. }
      rewrite Hlook in Hsome. by destruct Hsome.
Qed.

(** ** Key facts *)

Lemma strip_then_filter (l : list string) :
  map Py.strip
    (filter (λ line, Py.startswith "-" (Py.strip line)
                     || Py.startswith RAGService.bullet (Py.strip line)) l)
  = filter (λ fact, String.prefix "-" fact = true
                    ∨ String.prefix RAGService.bullet fact = true)
      (map Py.strip l).
Proof.
  induction l as [|line l IH]; [done|].
  cbn [map]. rewrite !filter_cons, <- IH. unfold Py.startswith.
  assert (Hiff : Is_true (String.prefix "-" (Py.strip line)
                          || String.prefix RAGService.bullet (Py.strip line))
                 ↔ String.prefix "-" (Py.strip line) = true
                   ∨ String.prefix RAGService.bullet (Py.strip line) = true).
  { rewrite orb_True, !Is_true_true. done. }
  destruct (decide (Is_true _)) as [Hb|Hb]; destruct (decide (_ ∨ _)) as [Hp|Hp];
    try done; tauto.
Qed.

(** X12.  Key-fact extraction never raises and invokes the LLM once.  Its
    facts are the first five of the lines of the reply that, with the white
    space around them removed, begin with a hyphen or with a bullet: so it
    returns at most five facts, each is such a line without the white space
    around it, and the facts keep the order of the lines.  White space is
    what [str.strip()] removes, the no-break space included.  When the
    invocation fails there are no facts. *)
Theorem key_facts_are_bullet_lines (env : Env) (conversation : Conversation.t)
    (w : World) :
  ∃ facts,
    RAGService.extract_key_facts env conversation w
    = (Ok facts, logged w [LlmCall (RAGService.facts_messages conversation)])
    ∧ length facts ≤ 5
    ∧ Forall (λ fact, String.prefix "-" fact = true
                      ∨ String.prefix RAGService.bullet fact = true) facts
    ∧ (∀ content,
         llm_invoke env (RAGService.facts_messages conversation) = Ok content →
         facts `sublist_of` map Py.strip (Py.split Py.nl content))
    ∧ (∀ content,
         llm_invoke env (RAGService.facts_messages conversation) = Ok content →
         facts
         = take 5
             (filter (λ fact, String.prefix "-" fact = true
                              ∨ String.prefix RAGService.bullet fact = true)
                (map Py.strip (Py.split Py.nl content))))
    ∧ (∀ e, llm_invoke env (RAGService.facts_messages conversation) = Raise e →
            facts = []).
Proof.
  rewrite extract_key_facts_run. eexists. split; [done|].
  destruct (llm_invoke env _) as [content|e].
  - unfold RAGService.parse_facts, Py.firstn.
    split; [rewrite length_take; lia|]. split; [|split; [|split]]; [| | |done].
    + apply Forall_take. rewrite map_fmap. apply Forall_fmap, Forall_forall.
      intros line [Hline _]%list_elem_of_filter. simpl. unfold Py.startswith in Hline.
      apply orb_prop_elim in Hline as [H|H]; apply Is_true_true in H; [by left | by right].
    + intros ? [= <-]. etrans; [apply sublist_take|].
      rewrite !map_fmap. apply fmap_sublist, sublist_filter.
    + intros ? [= <-]. by rewrite strip_then_filter.
  - split; [simpl; lia|]. split; [constructor|]. split; [done|]. done.
Qed.

(** ** The context holds every block in full *)

Lemma contains_app_l (x a b : string) : contains x a → contains x (a +:+ b).
Proof.
  intros (p & q & ->). exists p, (q +:+ b). by rewrite !append_assoc.
Qed.

Lemma contains_app_r (x a b : string) : contains x b → contains x (a +:+ b).
Proof.
  intros (p & q & ->). exists (a +:+ p), q. by rewrite !append_assoc.
Qed.

Lemma append_nil_r (s : string) : s +:+ "" = s.
Proof. induction s as [|c s IH]; [done | by rewrite append_cons, IH]. Qed.

Lemma contains_refl (x : string) : contains x x.
Proof. exists "", "". by rewrite append_nil_r. Qed.

Lemma contains_concat (sep x : string) (parts : list string) :
  x ∈ parts → contains x (String.concat sep parts).
Proof.
  induction parts as [|p parts IH]; [by intros ?%elem_of_nil|].
  intros [->|Hx]%elem_of_cons; destruct parts as [|p' parts].
  - apply contains_refl.
  - apply contains_app_l, contains_refl.
  - by apply elem_of_nil in Hx.
  - change (String.concat sep (p :: p' :: parts))
      with (p +:+ sep +:+ String.concat sep (p' :: parts)).
    by apply contains_app_r, contains_app_r, IH.
Qed.

(** X13.  The context is empty for no chunks, and otherwise holds the block
    of every chunk in full: the label with the book title (or "Unknown
    Book") and the pages (or "?"), a line break, and the whole content of the
    chunk followed by a line break.  Nothing is cut, whatever the length of
    the contents. *)
Theorem context_holds_every_block (chunks : list Chunk.t) :
  RAGService.create_context_from_chunks [] = ""
  ∧ Forall
      (λ chunk,
         contains
           ("[From "
              +:+ match Chunk.book_title chunk with
                  | Some title => title
                  | None => "Unknown Book"
                  end
              +:+ ", pages "
              +:+ match Chunk.page_start chunk with
                  | Some n => Py.str_of_int n
                  | None => "?"
                  end
              +:+ "-"
              +:+ match Chunk.page_end chunk with
                  | Some n => Py.str_of_int n
                  | None => "?"
                  end
              +:+ "]" +:+ Py.nl +:+ Chunk.content chunk +:+ Py.nl)
           (RAGService.create_context_from_chunks chunks))
      chunks.
Proof.
  split; [reflexivity|]. apply Forall_forall. intros chunk Hchunk.
  unfold RAGService.create_context_from_chunks, Py.join. cbn zeta.
  rewrite for_append_map. apply contains_concat.
  rewrite map_fmap. by apply (list_elem_of_fmap_2 RAGService.context_part).
Qed.

(** ** The length of a preview *)

Lemma substring_length_le (n : nat) (s : string) :
  String.length (substring 0 n s) = n `min` String.length s.
Proof.
  revert s. induction n as [|n IH]; intros [|c s]; simpl; try done.
  by rewrite IH.
Qed.

Lemma append_length (a b : string) :
  String.length (a +:+ b) = String.length a + String.length b.
Proof. induction a as [|c a IH]; [done|]. rewrite append_cons. simpl. by rewrite IH. Qed.

(** X14.  The preview of a citation has the length of the content when that
    is at most 100, and 103 characters otherwise: for a content of 101 or 102
    characters the preview is longer than the content. *)
Theorem preview_length (chunks : list Chunk.t) :
  Forall2
    (λ chunk c,
       String.length (Citation.content_preview c)
       = if decide (String.length (Chunk.content chunk) ≤ 100)
         then String.length (Chunk.content chunk)
         else 103)
    chunks (ChatService._extract_citations chunks).
Proof.
  unfold ChatService._extract_citations. rewrite for_append_map.
  apply Forall2_map_self. intros chunk _. simpl.
  unfold ChatService.content_preview, Py.len, Py.slice_to.
  destruct (decide (100 < _)); destruct (decide (_ ≤ 100)); try lia; try done.
  rewrite append_length, substring_length_le.
  change (String.length "...") with 3. lia.
Qed.

(** ** The chunks of a document *)

Lemma add_chunk_fold_shape page_num total ics chunks idx :
  ∃ new,
    (fold_left (DocumentProcessor.add_chunk page_num total) ics (chunks, idx)).1
    = chunks ++ new
    ∧ Forall2
        (λ (ic : Z * string) c,
           DocChunk.content c = ic.2
           ∧ DocChunk.page_start c = page_num
           ∧ DocChunk.page_end c = page_num
           ∧ ChunkMetadata.page_number (DocChunk.metadata c) = page_num
           ∧ ChunkMetadata.chunk_in_page (DocChunk.metadata c) = ic.1
           ∧ ChunkMetadata.total_chunks_in_page (DocChunk.metadata c) = Z.of_nat total
           ∧ DocChunk.embedding c = None)
        ics new.
Proof.
  revert chunks idx. induction ics as [|[i text] ics IH]; intros chunks idx.
  - exists []. simpl. by rewrite app_nil_r.
  - cbn [fold_left DocumentProcessor.add_chunk].
    destruct (IH (chunks ++ [DocChunk.mk text page_num page_num idx
                               (ChunkMetadata.mk page_num i (Z.of_nat total)) None])
                (idx + 1)%Z) as (new & Hnew & Hall).
    eexists (_ :: new). rewrite Hnew, <- app_assoc. split; [done|].
    by constructor.
Qed.

Lemma enumerate_snd {A} (l : list A) : map snd (Py.enumerate l) = l.
Proof.
  unfold Py.enumerate. rewrite map_fmap, fmap_imap.
  induction l as [|x l IH] using rev_ind; [done|].
  rewrite imap_app, IH. simpl. done.
Qed.

Lemma enumerate_range {A} (l : list A) :
  Forall (λ ic : Z * A, (0 ≤ ic.1 < Z.of_nat (length l))%Z) (Py.enumerate l).
Proof.
  apply Forall_forall. intros ic (i & x & -> & Hx)%elem_of_lookup_imap.
  apply lookup_lt_Some in Hx. cbn [fst]. lia.
Qed.

Lemma enumerate_length {A} (l : list A) : length (Py.enumerate l) = length l.
Proof. apply length_imap. Qed.

Lemma enumerate_fst {A} (l : list A) :
  map fst (Py.enumerate l) = map Z.of_nat (seq 0 (length l)).
Proof.
  unfold Py.enumerate. rewrite map_fmap, fmap_imap.
  induction l as [|x l IH] using rev_ind; [done|].
  rewrite imap_app, IH, length_app, seq_app, map_app. simpl.
  by rewrite Nat.add_0_r.
Qed.

Lemma Forall2_map_eq {A B C} (P : A → B → Prop) (f : B → C) (g : A → C) l k :
  (∀ a b, P a b → f b = g a) → Forall2 P l k → map f k = map g l.
Proof.
  intros Hfg Hall. induction Hall as [|a b l k Hab _ IH]; [done|].
  simpl. by rewrite (Hfg a b Hab), IH.
Qed.

Lemma map_const_replicate {A B} (b : B) (l : list A) :
  map (λ _, b) l = replicate (length l) b.
Proof. induction l as [|x l IH]; [done|]. simpl. by rewrite IH. Qed.

Lemma add_page_shape env page chunks idx :
  ∃ new,
    (DocumentProcessor.add_page env (chunks, idx) page).1 = chunks ++ new
    ∧ map DocChunk.content new = split_text env page.1
    ∧ map DocChunk.page_start new
      = replicate (length (split_text env page.1)) page.2
    ∧ map (λ c, ChunkMetadata.chunk_in_page (DocChunk.metadata c)) new
      = map Z.of_nat (seq 0 (length (split_text env page.1)))
    ∧ map (λ c, ChunkMetadata.total_chunks_in_page (DocChunk.metadata c)) new
      = replicate (length (split_text env page.1))
          (Z.of_nat (length (split_text env page.1)))
    ∧ Forall
        (λ c, DocChunk.page_end c = DocChunk.page_start c
              ∧ ChunkMetadata.page_number (DocChunk.metadata c) = DocChunk.page_start c
              ∧ (0 ≤ ChunkMetadata.chunk_in_page (DocChunk.metadata c)
                 < ChunkMetadata.total_chunks_in_page (DocChunk.metadata c))%Z
              ∧ DocChunk.embedding c = None)
        new.
Proof.
  destruct page as [page_text page_num]. cbn [DocumentProcessor.add_page fst snd].
  destruct (add_chunk_fold_shape page_num (length (split_text env page_text))
              (Py.enumerate (split_text env page_text)) chunks idx)
    as (new & Hnew & Hall).
  exists new. split; [exact Hnew|]. clear Hnew.
  split; [|split; [|split; [|split]]].
  - rewrite <- (enumerate_snd (split_text env page_text)) at 1.
    eapply Forall2_map_eq; [|exact Hall]. intros a b Hab. apply Hab.
  - rewrite <- (enumerate_length (split_text env page_text)), <- map_const_replicate.
    eapply Forall2_map_eq; [|exact Hall]. intros a b Hab. apply Hab.
  - rewrite <- enumerate_fst.
    eapply Forall2_map_eq; [|exact Hall]. intros a b Hab. apply Hab.
  - rewrite <- (enumerate_length (split_text env page_text)) at 1.
    rewrite <- map_const_replicate.
    eapply Forall2_map_eq; [|exact Hall]. intros a b Hab. apply Hab.
  - pose proof (enumerate_range (split_text env page_text)) as Hrange.
    revert Hall Hrange. generalize (length (split_text env page_text)).
    generalize (Py.enumerate (split_text env page_text)). intros ics n Hall.
    induction Hall as [|[i text] c ics new (Hc & Hs & He & Hp & Hi & Ht & Hemb) Hall IH];
      intros Hrange; [done|].
    apply Forall_cons in Hrange as [Hi0 Hrange]. cbn [fst snd] in *.
    constructor; [|exact (IH Hrange)].
    rewrite He, Hp, Hi, Ht, Hemb, Hs. repeat split; lia.
Qed.

Lemma add_pages_shape env pages chunks idx :
  ∃ new,
    (fold_left (DocumentProcessor.add_page env) pages (chunks, idx)).1 = chunks ++ new
    ∧ map DocChunk.content new = flat_map (λ page, split_text env page.1) pages
    ∧ map DocChunk.page_start new
      = flat_map (λ page, replicate (length (split_text env page.1)) page.2) pages
    ∧ map (λ c, ChunkMetadata.chunk_in_page (DocChunk.metadata c)) new
      = flat_map (λ page, map Z.of_nat (seq 0 (length (split_text env page.1)))) pages
    ∧ map (λ c, ChunkMetadata.total_chunks_in_page (DocChunk.metadata c)) new
      = flat_map (λ page, replicate (length (split_text env page.1))
                            (Z.of_nat (length (split_text env page.1)))) pages
    ∧ Forall
        (λ c, DocChunk.page_end c = DocChunk.page_start c
              ∧ ChunkMetadata.page_number (DocChunk.metadata c) = DocChunk.page_start c
              ∧ (0 ≤ ChunkMetadata.chunk_in_page (DocChunk.metadata c)
                 < ChunkMetadata.total_chunks_in_page (DocChunk.metadata c))%Z
              ∧ DocChunk.embedding c = None)
        new.
Proof.
  revert chunks idx. induction pages as [|page pages IH]; intros chunks idx.
  - exists []. simpl. by rewrite app_nil_r.
  - cbn [fold_left flat_map].
    destruct (add_page_shape env page chunks idx)
      as (new & Hnew & Hc & Hs & Hi & Ht & Hf).
    destruct (DocumentProcessor.add_page env (chunks, idx) page) as [chunks' idx'].
    cbn [fst] in Hnew. subst chunks'.
    destruct (IH (chunks ++ new) idx') as (new' & Hnew' & Hc' & Hs' & Hi' & Ht' & Hf').
    exists (new ++ new').
    rewrite Hnew', <- app_assoc, !map_app, Hc, Hc', Hs, Hs', Hi, Hi', Ht, Ht'.
    repeat split; try done. by apply Forall_app.
Qed.


(** X15.  The chunker emits the pieces of the pages in page order and piece
    order.  Each chunk carries the number of the page it was cut from as its
    start page, its end page and its metadata page number.  Its
    [chunk_in_page] is the position of its piece among the pieces of that
    page, counted from 0, and its [total_chunks_in_page] is the number of
    pieces of that page, so the position lies below the total.  No chunk has
    an embedding yet.  A page that the splitter cuts into no piece
    contributes nothing. *)
Theorem create_chunks_shape (env : Env) (pages : list (string * Z)) :
  map DocChunk.content (DocumentProcessor.create_chunks env pages)
  = flat_map (λ page, split_text env page.1) pages
  ∧ map DocChunk.page_start (DocumentProcessor.create_chunks env pages)
    = flat_map (λ page, replicate (length (split_text env page.1)) page.2) pages
  ∧ map (λ c, ChunkMetadata.chunk_in_page (DocChunk.metadata c))
      (DocumentProcessor.create_chunks env pages)
    = flat_map (λ page, map Z.of_nat (seq 0 (length (split_text env page.1)))) pages
  ∧ map (λ c, ChunkMetadata.total_chunks_in_page (DocChunk.metadata c))
      (DocumentProcessor.create_chunks env pages)
    = flat_map (λ page, replicate (length (split_text env page.1))
                          (Z.of_nat (length (split_text env page.1)))) pages
  ∧ Forall
      (λ c, DocChunk.page_end c = DocChunk.page_start c
            ∧ ChunkMetadata.page_number (DocChunk.metadata c) = DocChunk.page_start c
            ∧ (0 ≤ ChunkMetadata.chunk_in_page (DocChunk.metadata c)
               < ChunkMetadata.total_chunks_in_page (DocChunk.metadata c))%Z
            ∧ DocChunk.embedding c = None)
      (DocumentProcessor.create_chunks env pages).
Proof.
  unfold DocumentProcessor.create_chunks.
  destruct (add_pages_shape env pages [] 0%Z) as (new & -> & H). exact H.
Qed.

(** ** Embeddings at ingestion *)

Lemma assign_embeddings_length chunks embeddings :
  length (DocumentProcessor.assign_embeddings chunks embeddings) = length chunks.
Proof.
  revert embeddings. induction chunks as [|c cs IH]; intros [|e es]; simpl; try done.
  by rewrite IH.
Qed.

Lemma assign_embeddings_lookup chunks embeddings i :
  DocumentProcessor.assign_embeddings chunks embeddings !! i
  = (λ c, match embeddings !! i with
          | Some e => DocChunk.set_embedding c e
          | None => c
          end) <$> chunks !! i.
Proof.
  revert embeddings i. induction chunks as [|c cs IH]; intros [|e es] i.
  - done.
  - done.
  - cbn [DocumentProcessor.assign_embeddings]. rewrite lookup_nil.
    by destruct ((c :: cs) !! i).
  - destruct i as [|i]; [done|]. cbn [DocumentProcessor.assign_embeddings].
    rewrite !lookup_cons. apply IH.
Qed.

Lemma generate_embeddings_run env chunks w :
  DocumentProcessor.generate_embeddings env chunks w
  = (match embed env (map DocChunk.content chunks) with
     | Ok embeddings => Ok (DocumentProcessor.assign_embeddings chunks embeddings)
     | Raise e => Raise e
     end,
     logged w [EmbedCall (map DocChunk.content chunks)]).
Proof.
  unfold DocumentProcessor.generate_embeddings, try_except, bind.
  rewrite embed_texts_run. by destruct (embed env _).
Qed.

(** X16.  When the embedding model answers, [generate_embeddings] sends the
    contents of all chunks in one call and returns as many chunks as it was
    given, in the same order and with every field but the embedding
    untouched.  The chunk at position [i] receives the [i]-th vector; when
    the model returns fewer vectors than there are chunks, the chunks past
    the last vector come back as they were, without an error, and vectors
    past the last chunk are dropped. *)
Theorem generate_embeddings_pairs_by_position (env : Env) (w : World)
    (chunks : list DocChunk.t) (embeddings : list vector) :
  embed env (map DocChunk.content chunks) = Ok embeddings →
  ∃ result,
    DocumentProcessor.generate_embeddings env chunks w
    = (Ok result, logged w [EmbedCall (map DocChunk.content chunks)])
    ∧ length result = length chunks
    ∧ map DocChunk.content result = map DocChunk.content chunks
    ∧ map DocChunk.chunk_index result = map DocChunk.chunk_index chunks
    ∧ map DocChunk.page_start result = map DocChunk.page_start chunks
    ∧ map DocChunk.metadata result = map DocChunk.metadata chunks
    ∧ (∀ i c, chunks !! i = Some c →
         result !! i
         = Some (match embeddings !! i with
                 | Some e => DocChunk.set_embedding c e
                 | None => c
                 end))
    ∧ drop (length embeddings) result = drop (length embeddings) chunks.
Proof.
  intros Hemb. exists (DocumentProcessor.assign_embeddings chunks embeddings).
  rewrite generate_embeddings_run, Hemb. split; [done|].
  split; [apply assign_embeddings_length|].
  assert (Hfield : ∀ {B} (f : DocChunk.t → B),
            (∀ c e, f (DocChunk.set_embedding c e) = f c) →
            map f (DocumentProcessor.assign_embeddings chunks embeddings)
            = map f chunks).
  { intros B f Hf. clear Hemb. revert embeddings.
    induction chunks as [|c cs IH]; intros [|e es]; simpl; try done.
    by rewrite Hf, IH. }
  repeat split; try (apply Hfield; done).
  - intros i c Hc. by rewrite assign_embeddings_lookup, Hc.
  - clear Hemb Hfield. revert embeddings.
    induction chunks as [|c cs IH]; intros [|e es]; simpl; auto.
Qed.

Lemma generate_embeddings_pairs_by_position_witness :
  ∃ result,
    DocumentProcessor.generate_embeddings
      (Demo.env_with Demo.llm_ok Outage.embed_one)
      (DocumentProcessor.create_chunks (Demo.env_with Demo.llm_ok Outage.embed_one)
         [("first page", 1%Z); ("second page", 2%Z)])
      Demo.world0
    = (Ok result,
       logged Demo.world0 [EmbedCall ["first page"; "second page"]])
    ∧ map DocChunk.embedding result = [Some [QArith_base.Qmake 1 2]; None].
Proof.
  destruct (generate_embeddings_pairs_by_position
              (Demo.env_with Demo.llm_ok Outage.embed_one) Demo.world0
              (DocumentProcessor.create_chunks
                 (Demo.env_with Demo.llm_ok Outage.embed_one)
                 [("first page", 1%Z); ("second page", 2%Z)])
              [[QArith_base.Qmake 1 2]] eq_refl)
    as (result & Hrun & Hlen & _ & _ & _ & _ & Hat & _).
  exists result. split; [exact Hrun|].
  destruct result as [|r0 [|r1 [|r2 result]]]; try discriminate Hlen.
  pose proof (Hat 0%nat _ eq_refl) as H0. pose proof (Hat 1%nat _ eq_refl) as H1.
  simpl in H0, H1. injection H0 as ->. injection H1 as ->. reflexivity.
Defined.

(** ** The ingestion pipeline *)

